(** * ai-cli-client: a shallow embedding of [ask.py]

    The program is a terminal chat client with four back ends (gemini,
    openai, anthropic, groq).  This development embeds the class
    [AIClient] of [ask.py] -- the credential loading, the construction
    of the provider client, the per-provider [chat] method and
    [clear_history] -- together with [interactive_mode], and settles
    the properties the specification states about them.

    Modelling conventions.
    - Python [str] is [string], read as the sequence of its
      characters: each [ascii] is one code point below U+0100.
      [str.lower] and [str.strip] are what Python does on such
      strings.
    - A dict with string keys is a [gmap string _]; the credentials
      file holds a JSON object whose values are strings, and
      [json.load] after [json.dump] gives back the dict that was dumped.
    - A Python exception is a value of [exn]; a method that mutates
      [self] and may raise returns the object after the call together
      with a [result].
    - The provider libraries are outside the repository.  Their remote
      calls are a record [Remote] of functions from the request to
      either a response or an exception; nothing is assumed of them. *)

From Stdlib Require Import ZArith String Ascii List Bool Lia.
From stdpp Require Import base option gmap strings list fin_maps.
Import ListNotations.

Local Open Scope string_scope.
Local Open Scope list_scope.

(** ** Python values and exceptions *)

(** The exceptions that [ask.py] raises itself ([ImportError],
    [ValueError]), the ones the interpreter raises on the operations it
    performs ([IndexError] on [xs[0]], [AttributeError] on a missing
    attribute), and whatever a provider library raises during a call. *)
Inductive exn : Type :=
| ImportError (msg : string)
| ValueError (msg : string)
| IndexError (msg : string)
| AttributeError (msg : string)
| RemoteError (msg : string).

Inductive result (A : Type) : Type :=
| Return (a : A)
| Raise (e : exn).
Arguments Return {A} a.
Arguments Raise {A} e.

Definition is_return {A} (r : result A) : bool :=
  match r with Return _ => true | Raise _ => false end.

(** Truth value of an [Optional[str]]: [None] and [''] are false. *)
Definition truthy (o : option string) : bool :=
  match o with
  | None => false
  | Some s => negb (String.eqb s "")
  end.

(** [o or d] for an [Optional[str]] [o] and a string [d]. *)
Definition py_or (o : option string) (d : string) : string :=
  if truthy o then default d o else d.

(** [xs[0]] on a list. *)
Definition index0 {A} (xs : list A) : result A :=
  match xs with
  | [] => Raise (IndexError "list index out of range")
  | x :: _ => Return x
  end.

(** ** [str.lower] and [str.strip] *)

(** [str.lower] on one character below U+0100: the letters [A] to [Z]
    and the letters U+00C0 to U+00DE, the multiplication sign U+00D7
    apart, have their lower-case form 32 places up; every other
    character is its own. *)

Definition ascii_lower (c : ascii) : ascii :=
  let n := nat_of_ascii c in
  if (65 <=? n)%nat && (n <=? 90)%nat then ascii_of_nat (n + 32)
  else if (192 <=? n)%nat && (n <=? 222)%nat && negb (n =? 215)%nat
       then ascii_of_nat (n + 32)
  else c.

Fixpoint lower (s : string) : string :=
  match s with
  | EmptyString => EmptyString
  | String c s' => String (ascii_lower c) (lower s')
  end.

(** The characters [str.strip()] removes, among the characters below
    U+0100: tab, line feed, vertical tab, form feed, carriage return
    (9 to 13), the separators 28 to 31, space (32), next line (U+0085)
    and no-break space (U+00A0). *)
Definition isspace (c : ascii) : bool :=
  let n := nat_of_ascii c in
  ((9 <=? n)%nat && (n <=? 13)%nat) || ((28 <=? n)%nat && (n <=? 32)%nat)
  || (n =? 133)%nat || (n =? 160)%nat.

Fixpoint lstrip (s : string) : string :=
  match s with
  | EmptyString => EmptyString
  | String c s' => if isspace c then lstrip s' else s
  end.

Fixpoint rstrip (s : string) : string :=
  match s with
  | EmptyString => EmptyString
  | String c s' =>
      match rstrip s' with
      | EmptyString => if isspace c then EmptyString else String c EmptyString
      | t => String c t
      end
  end.

Definition strip (s : string) : string := rstrip (lstrip s).

(** ** The host: credentials file, environment, installed libraries *)

(** [~/.ai_cli_config.json]: the JSON object it holds and its mode. *)
Record File : Type := {
  json : gmap string string;
  perm : Z
}.

(** The four module-level flags set by the guarded imports. *)
Record Installed : Type := {
  GEMINI_AVAILABLE : bool;
  OPENAI_AVAILABLE : bool;
  ANTHROPIC_AVAILABLE : bool;
  GROQ_AVAILABLE : bool
}.

Record Host : Type := {
  config_file : option File;
  environ : gmap string string;
  installed : Installed
}.

(** [os.getenv(name, d)]. *)
Definition getenv (h : Host) (name d : string) : string :=
  default d (environ h !! name).

(** [d.setdefault(k, v)]: [k] is bound to [v] only when it is absent. *)
Definition setdefault (k v : string) (d : gmap string string) : gmap string string :=
  match d !! k with
  | Some _ => d
  | None => <[k := v]> d
  end.

(** ** Messages, provider clients and remote calls *)

(** A transcript entry, the dict [{"role": r, "content": c}]. *)
Record Message : Type := {
  role : string;
  content : string
}.

Definition user_turn (text : string) : Message :=
  {| role := "user"; content := text |}.
Definition assistant_turn (text : string) : Message :=
  {| role := "assistant"; content := text |}.
Definition system_turn (text : string) : Message :=
  {| role := "system"; content := text |}.

(** [self.client].  [genai.configure(api_key=k)] followed by
    [genai.GenerativeModel(m)] is the handle [GenerativeModel k m]. *)
Inductive Client : Type :=
| GenerativeModel (api_key : string) (model_name : string)
| OpenAI (api_key : string)
| Anthropic (api_key : string)
| Groq (api_key : string).

(** The remote calls of the provider libraries.
    - [generate_content c prompt] is [c.generate_content(prompt).text];
    - [completions_create c model messages] is the list of the
      [message.content] of the [choices] of
      [c.chat.completions.create(model=, messages=)];
    - [messages_create c model max_tokens messages system] is the list
      of the [text] of the [content] blocks of [c.messages.create(..)],
      [system] being [None] when the keyword is not passed.
    [model] is [self.model] as it stands, a string once the constructor
    has returned. *)
Record Remote : Type := {
  generate_content : Client -> string -> result string;
  completions_create :
    Client -> option string -> list Message -> result (list string);
  messages_create :
    Client -> option string -> Z -> list Message -> option string ->
    result (list string)
}.

(** ** [class AIClient] *)

Record AIClient : Type := {
  provider : string;
  model : option string;
  conversation_history : list Message;
  config : gmap string string;
  client : option Client
}.

Definition set_model (m : option string) (self : AIClient) : AIClient :=
  {| provider := provider self; model := m;
     conversation_history := conversation_history self;
     config := config self; client := client self |}.

Definition set_client (c : option Client) (self : AIClient) : AIClient :=
  {| provider := provider self; model := model self;
     conversation_history := conversation_history self;
     config := config self; client := c |}.

Definition set_history (h : list Message) (self : AIClient) : AIClient :=
  {| provider := provider self; model := model self;
     conversation_history := h;
     config := config self; client := client self |}.

Definition set_config (d : gmap string string) (self : AIClient) : AIClient :=
  {| provider := provider self; model := model self;
     conversation_history := conversation_history self;
     config := d; client := client self |}.

(** The dict [AIClient.load_config] leaves in [self.config]: the file
    when it exists, then the four [setdefault] calls in the order of
    the source. *)
Definition loaded_config (h : Host) : gmap string string :=
  let config := ∅ in
  let config :=
    match config_file h with
    | Some f => json f
    | None => config
    end in
  let config := setdefault "gemini_api_key" (getenv h "GEMINI_API_KEY" "") config in
  let config := setdefault "openai_api_key" (getenv h "OPENAI_API_KEY" "") config in
  let config := setdefault "anthropic_api_key" (getenv h "ANTHROPIC_API_KEY" "") config in
  let config := setdefault "groq_api_key" (getenv h "GROQ_API_KEY" "") config in
  config.

(** [AIClient.load_config]. *)
Definition load_config (h : Host) (self : AIClient) : AIClient :=
  set_config (loaded_config h) self.

(** [AIClient.save_config]: the file is overwritten with [self.config],
    then [os.chmod(.., 0o600)]. *)
Definition save_config (self : AIClient) (h : Host) : Host :=
  {| config_file := Some {| json := config self; perm := 384 |};
     environ := environ h;
     installed := installed h |}.

(** [AIClient.initialize_client].  On a raise [self] is returned as it
    was: no branch assigns an attribute before its last check. *)
Definition initialize_client (lib : Installed) (self : AIClient)
  : AIClient * result unit :=
  if String.eqb (provider self) "gemini" then
    if negb (GEMINI_AVAILABLE lib) then
      (self, Raise (ImportError
         "google-generativeai not installed. Run: pip install google-generativeai"))
    else
      let api_key := config self !! "gemini_api_key" in
      if negb (truthy api_key) then
        (self, Raise (ValueError
           "Gemini API key not found. Set GEMINI_API_KEY or run --configure"))
      else
        let m := py_or (model self) "gemini-pro" in
        (set_client (Some (GenerativeModel (default "" api_key) m))
           (set_model (Some m) self), Return tt)
  else if String.eqb (provider self) "openai" then
    if negb (OPENAI_AVAILABLE lib) then
      (self, Raise (ImportError "openai not installed. Run: pip install openai"))
    else
      let api_key := config self !! "openai_api_key" in
      if negb (truthy api_key) then
        (self, Raise (ValueError
           "OpenAI API key not found. Set OPENAI_API_KEY or run --configure"))
      else
        (set_model (Some (py_or (model self) "gpt-4-turbo-preview"))
           (set_client (Some (OpenAI (default "" api_key))) self), Return tt)
  else if String.eqb (provider self) "anthropic" then
    if negb (ANTHROPIC_AVAILABLE lib) then
      (self, Raise (ImportError "anthropic not installed. Run: pip install anthropic"))
    else
      let api_key := config self !! "anthropic_api_key" in
      if negb (truthy api_key) then
        (self, Raise (ValueError
           "Anthropic API key not found. Set ANTHROPIC_API_KEY or run --configure"))
      else
        (set_model (Some (py_or (model self) "claude-3-5-sonnet-20241022"))
           (set_client (Some (Anthropic (default "" api_key))) self), Return tt)
  else if String.eqb (provider self) "groq" then
    if negb (GROQ_AVAILABLE lib) then
      (self, Raise (ImportError "groq not installed. Run: pip install groq"))
    else
      let api_key := config self !! "groq_api_key" in
      if negb (truthy api_key) then
        (self, Raise (ValueError
           "Groq API key not found. Set GROQ_API_KEY or run --configure"))
      else
        (set_model (Some (py_or (model self) "llama-3.3-70b-versatile"))
           (set_client (Some (Groq (default "" api_key))) self), Return tt)
  else
    (self, Raise (ValueError ("Unknown provider: " +:+ provider self))).

(** [AIClient.__init__(provider, model)], on a given host.  When
    [initialize_client] raises, the constructor raises and no object is
    returned. *)
Definition AIClient_init (h : Host) (provider0 : string) (model0 : option string)
  : result AIClient :=
  let self := {| provider := lower provider0;
                 model := model0;
                 conversation_history := [];
                 config := ∅;
                 client := None |} in
  let self := load_config h self in
  match initialize_client (installed h) self with
  | (self, Return _) => Return self
  | (_, Raise e) => Raise e
  end.

(** The text of [f"{system_prompt}\n\n{message}"]. *)
Definition NL : string := String (ascii_of_nat 10) EmptyString.

Definition with_system (system_prompt message : string) : string :=
  system_prompt +:+ NL +:+ NL +:+ message.

(** [self.client] read on an object whose constructor did not run
    [initialize_client] to its end. *)
Definition no_client : exn :=
  AttributeError "'AIClient' object has no attribute 'client'".

(** [self.conversation_history.append(m)]. *)
Definition append_history (m : Message) (self : AIClient) : AIClient :=
  set_history (conversation_history self ++ [m]) self.

(** The [openai] and the [groq] branch of [chat]; the two are the same
    text in the source, on clients of the two libraries. *)
Definition chat_completions (api : Remote) (self : AIClient)
    (message : string) (system_prompt : option string)
  : AIClient * result (option string) :=
  let messages := [] in
  let messages :=
    if truthy system_prompt
    then messages ++ [system_turn (default "" system_prompt)]
    else messages in
  let messages := messages ++ conversation_history self in
  let messages := messages ++ [user_turn message] in
  match client self with
  | None => (self, Raise no_client)
  | Some c =>
      match completions_create api c (model self) messages with
      | Raise e => (self, Raise e)
      | Return choices =>
          match index0 choices with
          | Raise e => (self, Raise e)
          | Return reply =>
              let self := append_history (user_turn message) self in
              let self := append_history (assistant_turn reply) self in
              (self, Return (Some reply))
          end
      end
  end.

(** [AIClient.chat].  The last case is the fall-through of the
    [if]/[elif] chain, where the method returns [None]. *)
Definition chat (api : Remote) (self : AIClient)
    (message : string) (system_prompt : option string)
  : AIClient * result (option string) :=
  if String.eqb (provider self) "gemini" then
    let message :=
      if truthy system_prompt then
        match conversation_history self with
        | [] => with_system (default "" system_prompt) message
        | _ :: _ => message
        end
      else message in
    match client self with
    | None => (self, Raise no_client)
    | Some c =>
        match generate_content api c message with
        | Raise e => (self, Raise e)
        | Return text => (self, Return (Some text))
        end
    end
  else if String.eqb (provider self) "openai" then
    chat_completions api self message system_prompt
  else if String.eqb (provider self) "anthropic" then
    let self := append_history (user_turn message) self in
    let system := if truthy system_prompt then system_prompt else None in
    match client self with
    | None => (self, Raise no_client)
    | Some c =>
        match messages_create api c (model self) 4096
                (conversation_history self) system with
        | Raise e => (self, Raise e)
        | Return blocks =>
            match index0 blocks with
            | Raise e => (self, Raise e)
            | Return reply =>
                let self := append_history (assistant_turn reply) self in
                (self, Return (Some reply))
            end
        end
    end
  else if String.eqb (provider self) "groq" then
    chat_completions api self message system_prompt
  else
    (self, Return None).

(** [AIClient.clear_history]. *)
Definition clear_history (self : AIClient) : AIClient :=
  set_history [] self.

(** ** Sequences of sends *)

(** One call of [chat]: what the provider will answer, the message and
    the system prompt. *)
Record Call : Type := {
  call_api : Remote;
  call_message : string;
  call_system : option string
}.

(** [chat] called once per element, on the same object. *)
Fixpoint sends (self : AIClient) (calls : list Call)
  : AIClient * list (result (option string)) :=
  match calls with
  | [] => (self, [])
  | c :: rest =>
      let '(self, r) := chat (call_api c) self (call_message c) (call_system c) in
      let '(self, rs) := sends self rest in
      (self, r :: rs)
  end.

(** ** [interactive_mode] *)

(** What [input()] does at one prompt: a line is read, or the user
    interrupts. *)
Inductive Stdin : Type :=
| Line (text : string)
| KeyboardInterrupt.

(** The lines printed inside the loop. *)
Inductive Output : Type :=
| Goodbye
| Cleared
| AI (response : option string)
| Error (e : exn).

(** The [while True] loop of [interactive_mode], run on the inputs
    given; each prompt comes with the provider's behaviour at that
    moment.  When the inputs end the loop is still at its prompt. *)
Fixpoint interactive_mode (client : AIClient) (system_prompt : option string)
    (inputs : list (Stdin * Remote)) : AIClient * list Output :=
  match inputs with
  | [] => (client, [])
  | (KeyboardInterrupt, _) :: _ => (client, [Goodbye])
  | (Line text, api) :: rest =>
      let user_input := strip text in
      if String.eqb user_input "" then
        interactive_mode client system_prompt rest
      else if String.eqb (lower user_input) "exit"
              || String.eqb (lower user_input) "quit" then
        (client, [Goodbye])
      else if String.eqb (lower user_input) "clear" then
        let client := clear_history client in
        let '(client, out) := interactive_mode client system_prompt rest in
        (client, Cleared :: out)
      else
        match chat api client user_input system_prompt with
        | (client, Return response) =>
            let '(client, out) := interactive_mode client system_prompt rest in
            (client, AI response :: out)
        | (client, Raise e) =>
            let '(client, out) := interactive_mode client system_prompt rest in
            (client, Error e :: out)
        end
  end.

(** ** Vocabulary of the statements *)

(** The four selectors [initialize_client] and [chat] dispatch on. *)
Definition providers : list string := ["gemini"; "openai"; "anthropic"; "groq"].

(** The selectors whose branch of [chat] records the exchange. *)
Definition chat_providers : list string := ["openai"; "anthropic"; "groq"].

(** Per provider, the literals of its branch of [initialize_client] and
    of its line of [load_config]: the key of the credential, the
    environment variable, the flag of the library, the default model. *)
Definition api_key_name (p : string) : string := p +:+ "_api_key".

Definition env_var_name (p : string) : string :=
  if String.eqb p "gemini" then "GEMINI_API_KEY"
  else if String.eqb p "openai" then "OPENAI_API_KEY"
  else if String.eqb p "anthropic" then "ANTHROPIC_API_KEY"
  else "GROQ_API_KEY".

Definition library_available (lib : Installed) (p : string) : bool :=
  if String.eqb p "gemini" then GEMINI_AVAILABLE lib
  else if String.eqb p "openai" then OPENAI_AVAILABLE lib
  else if String.eqb p "anthropic" then ANTHROPIC_AVAILABLE lib
  else GROQ_AVAILABLE lib.

Definition default_model (p : string) : string :=
  if String.eqb p "gemini" then "gemini-pro"
  else if String.eqb p "openai" then "gpt-4-turbo-preview"
  else if String.eqb p "anthropic" then "claude-3-5-sonnet-20241022"
  else "llama-3.3-70b-versatile".

(** The recognised keys of the credentials mapping, each with its
    environment variable. *)
Definition recognized : list (string * string) :=
  map (fun p => (api_key_name p, env_var_name p)) providers.

(** What the credentials file binds a key to; nothing when there is no
    file. *)
Definition file_lookup (h : Host) (k : string) : option string :=
  match config_file h with
  | Some f => json f !! k
  | None => None
  end.

(** The value [load_config] gives a key the file does not bind. *)
Definition env_fill (h : Host) (k : string) : option string :=
  if String.eqb k "gemini_api_key" then Some (getenv h "GEMINI_API_KEY" "")
  else if String.eqb k "openai_api_key" then Some (getenv h "OPENAI_API_KEY" "")
  else if String.eqb k "anthropic_api_key" then Some (getenv h "ANTHROPIC_API_KEY" "")
  else if String.eqb k "groq_api_key" then Some (getenv h "GROQ_API_KEY" "")
  else None.

(** The specification's [ConfigurationError]: the two exception classes
    [initialize_client] raises. *)
Definition ConfigurationError (e : exn) : bool :=
  match e with
  | ImportError _ | ValueError _ => true
  | _ => false
  end.

(** The object [__init__] passes to [load_config]. *)
Definition fresh (provider0 : string) (model0 : option string) : AIClient :=
  {| provider := lower provider0; model := model0;
     conversation_history := []; config := ∅; client := None |}.

(** The transcript that records the exchanges [(message, reply)] in
    order. *)
Fixpoint transcript_of (exchanges : list (string * string)) : list Message :=
  match exchanges with
  | [] => []
  | (m, r) :: rest => user_turn m :: assistant_turn r :: transcript_of rest
  end.

(** Roles alternate, user first, and the last turn is an assistant's. *)
Fixpoint alternating (t : list Message) : bool :=
  match t with
  | [] => true
  | u :: a :: rest =>
      String.eqb (role u) "user" && String.eqb (role a) "assistant"
      && alternating rest
  | _ => false
  end.

(** The reply [chat] returns for a provider's text. *)
Definition replied (r : result string) : result (option string) :=
  match r with
  | Return text => Return (Some text)
  | Raise e => Raise e
  end.

(** A provider that returns at least one choice, or one block, to
    every chat request. *)
Definition answers (api : Remote) : Prop :=
  (forall c mo ms, exists r rest,
      completions_create api c mo ms = Return (r :: rest)) /\
  (forall c mo mt ms sy, exists r rest,
      messages_create api c mo mt ms sy = Return (r :: rest)).

(** ** Concrete hosts, clients and providers *)

Definition all_installed : Installed :=
  {| GEMINI_AVAILABLE := true; OPENAI_AVAILABLE := true;
     ANTHROPIC_AVAILABLE := true; GROQ_AVAILABLE := true |}.

(** No credentials file, nothing in the environment. *)
Definition bare_host : Host :=
  {| config_file := None; environ := ∅; installed := all_installed |}.

(** No credentials file, one key for each provider in the environment. *)
Definition env_host : Host :=
  {| config_file := None;
     environ := <["GEMINI_API_KEY" := "g-key"]>
                (<["OPENAI_API_KEY" := "o-key"]>
                (<["ANTHROPIC_API_KEY" := "a-key"]>
                (<["GROQ_API_KEY" := "q-key"]> ∅)));
     installed := all_installed |}.

(** A provider that answers every request: the prompt itself for
    [generate_content], one choice or one block otherwise. *)
Definition answering : Remote :=
  {| generate_content := fun _ prompt => Return prompt;
     completions_create := fun _ _ _ => Return ["pong"];
     messages_create := fun _ _ _ _ _ => Return ["pong"] |}.

(** A provider whose every call raises. *)
Definition unreachable : Remote :=
  {| generate_content := fun _ _ => Raise (RemoteError "connection refused");
     completions_create := fun _ _ _ => Raise (RemoteError "connection refused");
     messages_create := fun _ _ _ _ _ => Raise (RemoteError "connection refused") |}.

(** The object [AIClient(p)] is on [env_host], for each provider. *)
Definition a_client (p key : string) (c : Client) : AIClient :=
  {| provider := p; model := Some (default_model p);
     conversation_history := []; config := loaded_config env_host;
     client := Some c |}.

Definition gemini_client : AIClient :=
  a_client "gemini" "g-key" (GenerativeModel "g-key" "gemini-pro").
Definition openai_client : AIClient := a_client "openai" "o-key" (OpenAI "o-key").
Definition anthropic_client : AIClient :=
  a_client "anthropic" "a-key" (Anthropic "a-key").
Definition groq_client : AIClient := a_client "groq" "q-key" (Groq "q-key").

(** The gemini client some turns into a session, had the transcript
    been recorded. *)
Definition gemini_client_later : AIClient :=
  set_history [user_turn "hi"; assistant_turn "hello"] gemini_client.

(** Two calls answered and one refused. *)
Definition call_hello : Call :=
  {| call_api := answering; call_message := "hello"; call_system := None |}.
Definition call_more : Call :=
  {| call_api := answering; call_message := "more";
     call_system := Some "You are a poet" |}.

(** A client whose credentials mapping binds the groq key only. *)
Definition file_client : AIClient :=
  set_config (<["groq_api_key" := "q-file"]> ∅) groq_client.

(** ** [configure_api_keys] *)

(** [s[:10]]. *)
Definition first10 (s : string) : string := String.substring 0 10 s.

(** The text [input] shows for one key: the label of the provider and
    the first ten characters of what [config] binds the key to. *)
Definition key_prompt (label key : string) (config : gmap string string) : string :=
  label +:+ " API Key [" +:+ first10 (default "" (config !! key)) +:+ "...]: ".

(** One [input(..).strip()] and the assignment it guards; the four
    blocks of the source are this text on four labels and keys.  [None]
    when [input] does not return: the user interrupts, or the inputs
    given end there. *)
Definition ask_key (label key : string) (config : gmap string string)
    (inputs : list Stdin)
  : string * option (gmap string string * list Stdin) :=
  (key_prompt label key config,
   match inputs with
   | Line text :: rest =>
       let typed := strip text in
       Some (if String.eqb typed "" then config else <[key := typed]> config, rest)
   | _ => None
   end).

(** [configure_api_keys()]: the host after the call, the prompts shown,
    and whether the file was written.  The file is opened for writing
    after the fourth [input] has returned. *)
Definition configure_api_keys (h : Host) (inputs : list Stdin)
  : Host * list string * bool :=
  let config := ∅ in
  let config :=
    match config_file h with
    | Some f => json f
    | None => config
    end in
  let '(p1, r) := ask_key "Gemini" "gemini_api_key" config inputs in
  match r with
  | None => (h, [p1], false)
  | Some (config, inputs) =>
  let '(p2, r) := ask_key "OpenAI" "openai_api_key" config inputs in
  match r with
  | None => (h, [p1; p2], false)
  | Some (config, inputs) =>
  let '(p3, r) := ask_key "Anthropic" "anthropic_api_key" config inputs in
  match r with
  | None => (h, [p1; p2; p3], false)
  | Some (config, inputs) =>
  let '(p4, r) := ask_key "Groq" "groq_api_key" config inputs in
  match r with
  | None => (h, [p1; p2; p3; p4], false)
  | Some (config, _) =>
      ({| config_file := Some {| json := config; perm := 384 |};
          environ := environ h;
          installed := installed h |},
       [p1; p2; p3; p4], true)
  end end end end.

(** ** Vocabulary of the further statements *)

(** The client each branch of [initialize_client] builds from the
    credential and the model. *)
Definition handle_for (p key model_name : string) : Client :=
  if String.eqb p "gemini" then GenerativeModel key model_name
  else if String.eqb p "openai" then OpenAI key
  else if String.eqb p "anthropic" then Anthropic key
  else Groq key.

(** The head of the message list of the openai and groq branches. *)
Definition system_messages (sp : option string) : list Message :=
  if truthy sp then [system_turn (default "" sp)] else [].

(** [response.choices[0].message.content], or [response.content[0].text],
    of a call that may have raised. *)
Definition first_choice (r : result (list string)) : result (option string) :=
  match r with
  | Raise e => Raise e
  | Return xs =>
      match index0 xs with
      | Raise e => Raise e
      | Return x => Return (Some x)
      end
  end.

(** The exchanges of the calls that returned a reply, in order. *)
Fixpoint exchanges (calls : list Call) (rs : list (result (option string)))
  : list (string * string) :=
  match calls, rs with
  | c :: calls', Return (Some r) :: rs' => (call_message c, r) :: exchanges calls' rs'
  | _ :: calls', _ :: rs' => exchanges calls' rs'
  | _, _ => []
  end.

(** The user turn of every call, followed by the assistant turn when
    the call returned a reply. *)
Fixpoint turns_of_calls (calls : list Call) (rs : list (result (option string)))
  : list Message :=
  match calls, rs with
  | c :: calls', r :: rs' =>
      user_turn (call_message c)
      :: match r with
         | Return (Some x) => [assistant_turn x]
         | _ => []
         end ++ turns_of_calls calls' rs'
  | _, _ => []
  end.

(** The number of calls that returned a reply. *)
Definition replies_count (rs : list (result (option string))) : nat :=
  length (List.filter (fun r => match r with Return (Some _) => true | _ => false end) rs).

(** An input the loop skips: a line that is empty once stripped. *)
Definition blank (i : Stdin * Remote) : bool :=
  match fst i with
  | Line text => String.eqb (strip text) ""
  | KeyboardInterrupt => false
  end.

(** An input that ends the loop: an interrupt, or [exit] or [quit] in
    any case with any blanks around. *)
Definition stops (i : Stdin * Remote) : bool :=
  match fst i with
  | Line text =>
      String.eqb (lower (strip text)) "exit" || String.eqb (lower (strip text)) "quit"
  | KeyboardInterrupt => true
  end.

(** The [clear] command, in any case with any blanks around. *)
Definition clears (i : Stdin * Remote) : bool :=
  match fst i with
  | Line text => String.eqb (lower (strip text)) "clear"
  | KeyboardInterrupt => false
  end.

(** A text the loop passes to [chat]: not empty and none of the three
    commands. *)
Definition sendable (m : string) : Prop :=
  m <> "" /\ lower m <> "exit" /\ lower m <> "quit" /\ lower m <> "clear".

(** Every user turn of the transcript holds a sendable text. *)
Definition user_turns_sendable (t : list Message) : Prop :=
  Forall (fun x => role x = "user" -> sendable (content x)) t.

(** No turn of the transcript has the role [system]. *)
Definition no_system_turn (t : list Message) : Prop :=
  Forall (fun x => role x <> "system") t.

(** What a line typed at a prompt assigns: the line stripped, when that
    is not empty. *)
Definition typed (text : string) : option string :=
  if String.eqb (strip text) "" then None else Some (strip text).

(** What the four lines typed at the four prompts assign to a key. *)
Definition typed_for (k : string) (t1 t2 t3 t4 : string) : option string :=
  if String.eqb k "gemini_api_key" then typed t1
  else if String.eqb k "openai_api_key" then typed t2
  else if String.eqb k "anthropic_api_key" then typed t3
  else if String.eqb k "groq_api_key" then typed t4
  else None.

(** The labels and keys of the four prompts, in the order they are
    shown. *)
Definition prompted : list (string * string) :=
  [("Gemini", "gemini_api_key"); ("OpenAI", "openai_api_key");
   ("Anthropic", "anthropic_api_key"); ("Groq", "groq_api_key")].

(** The line the loop prints for what [chat] did. *)
Definition printed (r : result (option string)) : Output :=
  match r with
  | Return response => AI response
  | Raise e => Error e
  end.

(** A host with a credentials file that binds a long groq key and an
    entry of another program. *)
Definition file_host : Host :=
  {| config_file :=
       Some {| json := <["groq_api_key" := "gsk_0123456789abcdef"]>
                       (<["editor" := "vi"]> ∅);
               perm := 420 |};
     environ := ∅;
     installed := all_installed |}.

(** No-break space (U+00A0) and next line (U+0085). *)
Definition NBSP : string := String (ascii_of_nat 160) EmptyString.
Definition NEL : string := String (ascii_of_nat 133) EmptyString.

(** The openai client after one recorded exchange. *)
Definition openai_client_later : AIClient := fst (sends openai_client [call_hello]).

(** A host whose file binds the groq key to the empty string, with the
    key in the environment. *)
Definition shadowed_host : Host :=
  {| config_file := Some {| json := <["groq_api_key" := ""]> ∅; perm := 384 |};
     environ := environ env_host;
     installed := all_installed |}.

(** A host without the anthropic library. *)
Definition no_anthropic_host : Host :=
  {| config_file := None; environ := environ env_host;
     installed := {| GEMINI_AVAILABLE := true; OPENAI_AVAILABLE := true;
                     ANTHROPIC_AVAILABLE := false; GROQ_AVAILABLE := true |} |}.

(** A call the provider refuses. *)
Definition call_refused : Call :=
  {| call_api := unreachable; call_message := "lost"; call_system := None |}.

(** ** Strings *)



Lemma truthy_Some (s : string) : truthy (Some s) = true <-> s <> "".
Proof.
  unfold truthy. destruct (String.eqb_spec s ""); simpl; split; congruence.
Qed.

Lemma py_or_truthy (s d : string) : s <> "" -> py_or (Some s) d = s.
Proof. intros H. unfold py_or. apply truthy_Some in H. now rewrite H. Qed.

Lemma providers_cases (p : string) :
  In p providers -> p = "gemini" \/ p = "openai" \/ p = "anthropic" \/ p = "groq".
Proof. simpl. intuition. Qed.

Lemma chat_providers_cases (p : string) :
  In p chat_providers -> p = "openai" \/ p = "anthropic" \/ p = "groq".
Proof. simpl. intuition. Qed.

Lemma not_provider (p : string) :
  ~ In p providers ->
  String.eqb p "gemini" = false /\ String.eqb p "openai" = false /\
  String.eqb p "anthropic" = false /\ String.eqb p "groq" = false.
Proof.
  intros H. repeat split; apply String.eqb_neq; intros ->; apply H; simpl; tauto.
Qed.

(** ** The credentials mapping *)

Lemma lookup_setdefault (k v j : string) (d : gmap string string) :
  setdefault k v d !! j =
  match d !! j with
  | Some x => Some x
  | None => if String.eqb k j then Some v else None
  end.
Proof.
  unfold setdefault.
  destruct (String.eqb_spec k j) as [->|Hne].
  - destruct (d !! j) eqn:E; [now rewrite E|]. now rewrite lookup_insert_eq.
  - destruct (d !! k) eqn:E.
    + now destruct (d !! j).
    + rewrite lookup_insert_ne by exact Hne. now destruct (d !! j).
Qed.

Lemma loaded_config_lookup (h : Host) (k : string) :
  loaded_config h !! k =
  match file_lookup h k with
  | Some v => Some v
  | None => env_fill h k
  end.
Proof.
  unfold loaded_config. rewrite !lookup_setdefault.
  replace ((match config_file h with Some f => json f | None => ∅ end) !! k)
    with (file_lookup h k)
    by (unfold file_lookup; destruct (config_file h); [reflexivity|now rewrite lookup_empty]).
  destruct (file_lookup h k); [reflexivity|].
  unfold env_fill.
  rewrite (String.eqb_sym k "gemini_api_key"), (String.eqb_sym k "openai_api_key"),
    (String.eqb_sym k "anthropic_api_key"), (String.eqb_sym k "groq_api_key").
  destruct (String.eqb "gemini_api_key" k); [reflexivity|].
  destruct (String.eqb "openai_api_key" k); [reflexivity|].
  destruct (String.eqb "anthropic_api_key" k); reflexivity.
Qed.

Lemma env_fill_recognized (h : Host) (k var : string) :
  In (k, var) recognized -> env_fill h k = Some (getenv h var "").
Proof.
  simpl. intros [E|[E|[E|[E|[]]]]]; inversion E; subst; reflexivity.
Qed.

(** ** Construction of the client *)

(** The credential key of each known provider, as a literal. *)
Ltac key_names :=
  change (api_key_name "gemini") with "gemini_api_key" in *;
  change (api_key_name "openai") with "openai_api_key" in *;
  change (api_key_name "anthropic") with "anthropic_api_key" in *;
  change (api_key_name "groq") with "groq_api_key" in *.

Lemma lower_provider (p : string) : In p providers -> lower p = p.
Proof. intros H. destruct (providers_cases p H) as [->|[->|[->| ->]]]; reflexivity. Qed.

Lemma AIClient_init_unfold (h : Host) (s : string) (m : option string) :
  AIClient_init h s m =
  match initialize_client (installed h) (load_config h (fresh s m)) with
  | (self, Return _) => Return self
  | (_, Raise e) => Raise e
  end.
Proof. reflexivity. Qed.

(** A selector none of the four branches matches reaches the final
    [else]. *)
Lemma initialize_client_unknown (lib : Installed) (self : AIClient) :
  ~ In (provider self) providers ->
  initialize_client lib self =
  (self, Raise (ValueError ("Unknown provider: " +:+ provider self))).
Proof.
  intros H. destruct (not_provider _ H) as (E1 & E2 & E3 & E4).
  unfold initialize_client. now rewrite E1, E2, E3, E4.
Qed.

(** Without a usable credential the branch of a known provider raises
    before [self.model] or [self.client] is assigned. *)
Lemma initialize_client_no_key (lib : Installed) (self : AIClient) :
  In (provider self) providers ->
  truthy (config self !! api_key_name (provider self)) = false ->
  exists e, initialize_client lib self = (self, Raise e) /\ ConfigurationError e = true.
Proof.
  intros Hp Hk. unfold initialize_client.
  destruct (providers_cases _ Hp) as [E|[E|[E|E]]]; rewrite E in *;
    key_names; simpl; rewrite Hk; simpl.
  - destruct (GEMINI_AVAILABLE lib); simpl; eexists; split; reflexivity.
  - destruct (OPENAI_AVAILABLE lib); simpl; eexists; split; reflexivity.
  - destruct (ANTHROPIC_AVAILABLE lib); simpl; eexists; split; reflexivity.
  - destruct (GROQ_AVAILABLE lib); simpl; eexists; split; reflexivity.
Qed.

(** With the library installed and a credential, the branch of a known
    provider succeeds; the model is the one given when it is a
    non-empty string and the default of the provider otherwise. *)
Lemma initialize_client_ok (lib : Installed) (self : AIClient) :
  In (provider self) providers ->
  library_available lib (provider self) = true ->
  truthy (config self !! api_key_name (provider self)) = true ->
  exists self',
    initialize_client lib self = (self', Return tt) /\
    model self' = Some (py_or (model self) (default_model (provider self))) /\
    provider self' = provider self /\
    conversation_history self' = conversation_history self /\
    config self' = config self /\
    is_Some (client self').
Proof.
  intros Hp Hl Hk. unfold initialize_client.
  destruct (providers_cases _ Hp) as [E|[E|[E|E]]]; rewrite E in *;
    key_names; unfold library_available in Hl; simpl in *;
    rewrite Hl, Hk; simpl; eexists; (split; [reflexivity|]); simpl;
    repeat split; eauto.
Qed.

Lemma fresh_provider (s : string) (m : option string) (h : Host) :
  provider (load_config h (fresh s m)) = lower s.
Proof. reflexivity. Qed.

(** A known selector without a usable credential: the constructor
    raises and [self.client] was never assigned. *)
Lemma AIClient_init_no_key (h : Host) (p : string) (m : option string) :
  In p providers ->
  truthy (loaded_config h !! api_key_name p) = false ->
  (exists e, AIClient_init h p m = Raise e /\ ConfigurationError e = true) /\
  client (fst (initialize_client (installed h) (load_config h (fresh p m)))) = None.
Proof.
  intros Hp Hk.
  destruct (initialize_client_no_key (installed h) (load_config h (fresh p m)))
    as (e & He & Hc).
  - rewrite fresh_provider, (lower_provider p Hp). exact Hp.
  - rewrite fresh_provider, (lower_provider p Hp). exact Hk.
  - rewrite AIClient_init_unfold, He. split; [eauto | reflexivity].
Qed.

Lemma AIClient_init_ok (h : Host) (p : string) (m : option string) :
  In p providers ->
  library_available (installed h) p = true ->
  truthy (loaded_config h !! api_key_name p) = true ->
  exists c, AIClient_init h p m = Return c /\
            model c = Some (py_or m (default_model p)) /\
            provider c = p /\ conversation_history c = [] /\ is_Some (client c).
Proof.
  intros Hp Hl Hk.
  destruct (initialize_client_ok (installed h) (load_config h (fresh p m)))
    as (c & Hc & Hm & Hpr & Hh & _ & Hcl).
  - rewrite fresh_provider, (lower_provider p Hp). exact Hp.
  - rewrite fresh_provider, (lower_provider p Hp). exact Hl.
  - rewrite fresh_provider, (lower_provider p Hp). exact Hk.
  - exists c. rewrite AIClient_init_unfold, Hc.
    rewrite fresh_provider, (lower_provider p Hp) in Hm, Hpr. auto.
Qed.

(** [self.model or default] does not tell [''] from [None]. *)
Lemma AIClient_init_empty_model (h : Host) (s : string) :
  AIClient_init h s (Some "") = AIClient_init h s None.
Proof.
  unfold AIClient_init, initialize_client, load_config, set_config. simpl.
  repeat match goal with
         | |- context [if ?b then _ else _] => destruct b; simpl; try reflexivity
         end.
Qed.

(** ** Credential store *)

(** C8. Saving a credentials mapping and loading it again gives, for
    each key the mapping binds, the saved value, and for each recognised
    provider key it does not bind, the value of the environment
    variable of that provider, the empty string when the variable is
    unset. *)
Theorem save_load_roundtrip (self other : AIClient) (h : Host) (k : string) :
  let reloaded := config (load_config (save_config self h) other) in
  (forall v, config self !! k = Some v -> reloaded !! k = Some v) /\
  (forall var, In (k, var) recognized -> config self !! k = None ->
               reloaded !! k = Some (getenv h var "")).
Proof.
  simpl. rewrite loaded_config_lookup. unfold file_lookup. simpl. split.
  - intros v ->. reflexivity.
  - intros var Hin ->. exact (env_fill_recognized h k var Hin).
Qed.

Lemma save_load_roundtrip_witness :
  config (load_config (save_config file_client env_host) groq_client)
    !! "groq_api_key" = Some "q-file" /\
  config (load_config (save_config file_client env_host) groq_client)
    !! "openai_api_key" = Some "o-key".
Proof.
  pose proof (save_load_roundtrip file_client groq_client env_host) as H.
  split.
  - apply (H "groq_api_key"). reflexivity.
  - apply (H "openai_api_key" ) with (var := "OPENAI_API_KEY").
    + simpl. tauto.
    + reflexivity.
Defined.

(** ** Provider adapter: [create] *)

(** C4, as amended. For each of the four selectors, when the
    credentials file does not bind the provider's key and the
    environment variable is unset, the constructor raises a
    configuration error and [self.client] is never assigned; and for
    every selector whose lower-case form is none of the four, the
    constructor raises the [ValueError] of the final [else]. *)
Theorem create_rejects_missing_credential_and_unknown_selector :
  (forall (h : Host) (p : string) (m : option string),
      In p providers ->
      file_lookup h (api_key_name p) = None ->
      environ h !! env_var_name p = None ->
      (exists e, AIClient_init h p m = Raise e /\ ConfigurationError e = true) /\
      client (fst (initialize_client (installed h) (load_config h (fresh p m))))
      = None) /\
  (forall (h : Host) (s : string) (m : option string),
      ~ In (lower s) providers ->
      AIClient_init h s m = Raise (ValueError ("Unknown provider: " +:+ lower s))).
Proof.
  split.
  - intros h p m Hp Hfile Henv. apply AIClient_init_no_key; [exact Hp|].
    rewrite loaded_config_lookup, Hfile.
    destruct (providers_cases p Hp) as [->|[->|[->| ->]]];
      key_names; unfold env_fill, getenv, env_var_name in *; simpl in *;
      rewrite Henv; reflexivity.
  - intros h s m Hs. rewrite AIClient_init_unfold.
    rewrite (initialize_client_unknown (installed h) (load_config h (fresh s m)))
      by (rewrite fresh_provider; exact Hs).
    reflexivity.
Qed.

Lemma create_rejects_witness :
  ((exists e, AIClient_init bare_host "anthropic" None = Raise e /\
              ConfigurationError e = true) /\
   client (fst (initialize_client (installed bare_host)
                  (load_config bare_host (fresh "anthropic" None)))) = None) /\
  AIClient_init env_host "Mistral" None = Raise (ValueError "Unknown provider: mistral").
Proof.
  destruct create_rejects_missing_credential_and_unknown_selector as [Hkey Hsel].
  split.
  - apply (Hkey bare_host "anthropic" None); [simpl; tauto | reflexivity | reflexivity].
  - apply (Hsel env_host "Mistral" None). simpl. intros [H|[H|[H|[H|[]]]]]; discriminate H.
Defined.

(** C4 as stated fails: the selector [GROQ] is none of the four names,
    and with a groq credential the constructor returns the groq
    client. *)
Lemma uppercase_selector_constructs :
  ~ In "GROQ" providers /\
  AIClient_init env_host "GROQ" None = Return groq_client.
Proof.
  split.
  - simpl. intros [H|[H|[H|[H|[]]]]]; discriminate H.
  - vm_compute. reflexivity.
Qed.

(** C5, as amended. For each of the four selectors, with the library
    installed and a credential present: a non-empty model override is
    the model of the client constructed; without an override the model
    is the default of the provider, [llama-3.3-70b-versatile] for groq
    and [claude-3-5-sonnet-20241022] for anthropic. *)
Theorem create_effective_model (h : Host) (p : string) :
  In p providers ->
  library_available (installed h) p = true ->
  truthy (loaded_config h !! api_key_name p) = true ->
  (forall m, m <> "" ->
     exists c, AIClient_init h p (Some m) = Return c /\ model c = Some m) /\
  (exists c, AIClient_init h p None = Return c /\
             model c = Some (default_model p) /\
             (p = "groq" -> model c = Some "llama-3.3-70b-versatile") /\
             (p = "anthropic" -> model c = Some "claude-3-5-sonnet-20241022")).
Proof.
  intros Hp Hl Hk. split.
  - intros m Hm. destruct (AIClient_init_ok h p (Some m) Hp Hl Hk) as (c & Hc & Hmod & _).
    exists c. split; [exact Hc|]. now rewrite Hmod, py_or_truthy.
  - destruct (AIClient_init_ok h p None Hp Hl Hk) as (c & Hc & Hmod & _).
    exists c. split; [exact Hc|]. split; [exact Hmod|].
    split; intros ->; exact Hmod.
Qed.

Lemma create_effective_model_witness :
  (forall m, m <> "" ->
     exists c, AIClient_init env_host "groq" (Some m) = Return c /\ model c = Some m) /\
  (exists c, AIClient_init env_host "groq" None = Return c /\
             model c = Some (default_model "groq") /\
             ("groq" = "groq" -> model c = Some "llama-3.3-70b-versatile") /\
             ("groq" = "anthropic" -> model c = Some "claude-3-5-sonnet-20241022")).
Proof.
  apply (create_effective_model env_host "groq");
    [simpl; tauto | reflexivity | vm_compute; reflexivity].
Defined.

(** C5 as stated fails: with the override [''] the model of the client
    is the default of the provider, not the override. *)
Lemma empty_override_is_not_effective :
  AIClient_init env_host "groq" (Some "") = Return groq_client /\
  model groq_client = Some "llama-3.3-70b-versatile" /\
  model groq_client <> Some "".
Proof.
  split; [vm_compute; reflexivity|]. split; [reflexivity | discriminate].
Qed.

(** C9. For each of the four selectors, constructing with the model
    override [''] gives what constructing without an override gives,
    and with the library installed and a credential present the model
    of the client is the default of the provider. *)
Theorem empty_override_behaves_as_none (h : Host) (p : string) :
  In p providers ->
  library_available (installed h) p = true ->
  truthy (loaded_config h !! api_key_name p) = true ->
  AIClient_init h p (Some "") = AIClient_init h p None /\
  exists c, AIClient_init h p (Some "") = Return c /\
            model c = Some (default_model p) /\ model c <> Some "".
Proof.
  intros Hp Hl Hk. split; [apply AIClient_init_empty_model|].
  destruct (AIClient_init_ok h p (Some "") Hp Hl Hk) as (c & Hc & Hmod & _).
  exists c. split; [exact Hc|]. split; [exact Hmod|].
  rewrite Hmod.
  destruct (providers_cases p Hp) as [->|[->|[->| ->]]]; discriminate.
Qed.

Lemma empty_override_behaves_as_none_witness :
  AIClient_init env_host "anthropic" (Some "") = AIClient_init env_host "anthropic" None /\
  exists c, AIClient_init env_host "anthropic" (Some "") = Return c /\
            model c = Some (default_model "anthropic") /\ model c <> Some "".
Proof.
  apply (empty_override_behaves_as_none env_host "anthropic");
    [simpl; tauto | reflexivity | vm_compute; reflexivity].
Defined.


(** ** Provider adapter: [chat] *)

Lemma length_append (a b : string) :
  String.length (a +:+ b) = String.length a + String.length b.
Proof.
  induction a as [|c a IH]; [reflexivity|].
  change (String c a +:+ b) with (String c (a +:+ b)). simpl. now rewrite IH.
Qed.

Lemma with_system_differs (sp m : string) : with_system sp m <> m.
Proof.
  intros H. apply (f_equal String.length) in H.
  unfold with_system in H. rewrite !length_append in H. simpl in H. lia.
Qed.

(** The gemini branch: [self] is untouched, and what is sent is the
    message, with the system prompt in front when the prompt is
    non-empty and the transcript is empty. *)
Lemma chat_gemini (api : Remote) (self : AIClient) (c : Client)
    (m : string) (sp : option string) :
  provider self = "gemini" ->
  client self = Some c ->
  chat api self m sp =
  (self,
   replied (generate_content api c
              (if truthy sp then
                 match conversation_history self with
                 | [] => with_system (default "" sp) m
                 | _ :: _ => m
                 end
               else m))).
Proof.
  intros Hp Hc. unfold chat. rewrite Hp, Hc. simpl.
  destruct (generate_content api c _); reflexivity.
Qed.

Lemma chat_gemini_self (api : Remote) (self : AIClient)
    (m : string) (sp : option string) :
  provider self = "gemini" -> fst (chat api self m sp) = self.
Proof.
  intros Hp. unfold chat. rewrite Hp. simpl.
  destruct (client self) as [c|]; [|reflexivity].
  destruct (generate_content api c _); reflexivity.
Qed.

(** The openai and groq branches commit the exchange after the reply
    was extracted; when anything raises, [self] is as it was. *)
Lemma chat_completions_cases (api : Remote) (self : AIClient)
    (m : string) (sp : option string) :
  (exists e, chat_completions api self m sp = (self, Raise e)) \/
  (exists r, chat_completions api self m sp =
             (set_history (conversation_history self
                             ++ [user_turn m; assistant_turn r]) self,
              Return (Some r))).
Proof.
  unfold chat_completions.
  destruct (client self) as [c|]; [|left; eauto].
  destruct (completions_create api c _ _) as [[|r rest]|e]; simpl.
  - left; eauto.
  - right. exists r. unfold append_history, set_history. simpl.
    now rewrite <- app_assoc.
  - left; eauto.
Qed.

(** The anthropic branch appends the user turn before the call; it is
    there whether the call returns or raises. *)
Lemma chat_anthropic_cases (api : Remote) (self : AIClient)
    (m : string) (sp : option string) :
  provider self = "anthropic" ->
  (exists e, chat api self m sp =
             (set_history (conversation_history self ++ [user_turn m]) self,
              Raise e)) \/
  (exists r, chat api self m sp =
             (set_history (conversation_history self
                             ++ [user_turn m; assistant_turn r]) self,
              Return (Some r))).
Proof.
  intros Hp. unfold chat. rewrite Hp. simpl.
  destruct (client self) as [c|]; [|left; eauto].
  destruct (messages_create api c _ _ _ _) as [[|r rest]|e]; simpl.
  - left; eauto.
  - right. exists r. unfold append_history, set_history. simpl.
    now rewrite <- app_assoc.
  - left; eauto.
Qed.

(** A successful send to a chat provider appends the user turn and the
    assistant turn, and nothing else of [self] changes. *)
Lemma chat_success (api : Remote) (self : AIClient)
    (m : string) (sp : option string) (r : string) :
  In (provider self) chat_providers ->
  snd (chat api self m sp) = Return (Some r) ->
  fst (chat api self m sp) =
  set_history (conversation_history self ++ [user_turn m; assistant_turn r]) self.
Proof.
  intros Hp Hr.
  destruct (chat_providers_cases _ Hp) as [E|[E|E]].
  - revert Hr. unfold chat. rewrite E. simpl.
    destruct (chat_completions_cases api self m sp) as [[e ->]|[r' ->]]; simpl;
      [discriminate | now intros [= ->]].
  - revert Hr.
    destruct (chat_anthropic_cases api self m sp E) as [[e ->]|[r' ->]]; simpl;
      [discriminate | now intros [= ->]].
  - revert Hr. unfold chat. rewrite E. simpl.
    destruct (chat_completions_cases api self m sp) as [[e ->]|[r' ->]]; simpl;
      [discriminate | now intros [= ->]].
Qed.

(** A failed send leaves [self] as it was in the gemini, openai and
    groq branches. *)
Lemma chat_raise_elsewhere (api : Remote) (self : AIClient)
    (m : string) (sp : option string) (e : exn) :
  In (provider self) ["gemini"; "openai"; "groq"] ->
  snd (chat api self m sp) = Raise e ->
  fst (chat api self m sp) = self.
Proof.
  simpl. intros [E|[E|[E|[]]]] Hr; symmetry in E.
  - now apply chat_gemini_self.
  - revert Hr. unfold chat. rewrite E. simpl.
    destruct (chat_completions_cases api self m sp) as [[e' ->]|[r' ->]]; simpl;
      [reflexivity | discriminate].
  - revert Hr. unfold chat. rewrite E. simpl.
    destruct (chat_completions_cases api self m sp) as [[e' ->]|[r' ->]]; simpl;
      [reflexivity | discriminate].
Qed.

Lemma length_transcript_of (xs : list (string * string)) :
  length (transcript_of xs) = 2 * length xs.
Proof. induction xs as [|[m r] xs IH]; simpl; [reflexivity | lia]. Qed.

Lemma alternating_transcript_of (xs : list (string * string)) :
  alternating (transcript_of xs) = true.
Proof. induction xs as [|[m r] xs IH]; simpl; [reflexivity | exact IH]. Qed.

(** [sends] on a chat provider, when every send returned a reply:
    the exchanges are appended in the order of the calls. *)
Lemma sends_history (calls : list Call) :
  forall (self : AIClient) (replies : list string),
    In (provider self) chat_providers ->
    snd (sends self calls) = map (fun r => Return (Some r)) replies ->
    conversation_history (fst (sends self calls)) =
    conversation_history self
      ++ transcript_of (combine (map call_message calls) replies)
    /\ length replies = length calls.
Proof.
  induction calls as [|c calls IH]; intros self replies Hp Hr.
  - destruct replies; [|discriminate]. simpl. now rewrite app_nil_r.
  - simpl in Hr |- *.
    pose proof (chat_success (call_api c) self (call_message c) (call_system c)) as Hs.
    destruct (chat (call_api c) self (call_message c) (call_system c)) as [self1 r1].
    specialize (IH self1).
    destruct (sends self1 calls) as [self2 rs]. simpl in *.
    destruct replies as [|r replies]; [discriminate|].
    simpl in Hr. injection Hr as -> Hrs.
    specialize (Hs r Hp eq_refl). subst self1.
    destruct (IH replies Hp Hrs) as [IH1 IH2].
    rewrite IH1. simpl. rewrite <- app_assoc. simpl. split; [reflexivity | lia].
Qed.

(** When every provider of the calls answers, every send to a chat
    provider returns a reply. *)
Lemma sends_all_reply (calls : list Call) :
  forall self : AIClient,
    In (provider self) chat_providers ->
    is_Some (client self) ->
    Forall (fun c => answers (call_api c)) calls ->
    exists replies, snd (sends self calls) = map (fun r => Return (Some r)) replies.
Proof.
  induction calls as [|c calls IH]; intros self Hp [cl Hcl] Hall.
  - exists []. reflexivity.
  - apply Forall_cons_iff in Hall as [[Hcc Hmc] Hall].
    assert (exists r, chat (call_api c) self (call_message c) (call_system c) =
                      (set_history (conversation_history self
                         ++ [user_turn (call_message c); assistant_turn r]) self,
                       Return (Some r))) as [r Hr].
    { destruct (chat_providers_cases _ Hp) as [E|[E|E]]; unfold chat; rewrite E; simpl.
      - unfold chat_completions. rewrite Hcl.
        destruct (Hcc cl (model self)
                    ((if truthy (call_system c)
                      then [] ++ [system_turn (default "" (call_system c))] else [])
                       ++ conversation_history self ++ [user_turn (call_message c)]))
          as (r & rest & Hrr).
        rewrite <- app_assoc. rewrite Hrr. simpl. exists r.
        unfold append_history, set_history. simpl. now rewrite <- app_assoc.
      - rewrite Hcl.
        destruct (Hmc cl (model self) 4096%Z
                    (conversation_history self ++ [user_turn (call_message c)])
                    (if truthy (call_system c) then call_system c else None))
          as (r & rest & Hrr).
        rewrite Hrr. simpl. exists r.
        unfold append_history, set_history. simpl. now rewrite <- app_assoc.
      - unfold chat_completions. rewrite Hcl.
        destruct (Hcc cl (model self)
                    ((if truthy (call_system c)
                      then [] ++ [system_turn (default "" (call_system c))] else [])
                       ++ conversation_history self ++ [user_turn (call_message c)]))
          as (r & rest & Hrr).
        rewrite <- app_assoc. rewrite Hrr. simpl. exists r.
        unfold append_history, set_history. simpl. now rewrite <- app_assoc. }
    simpl. rewrite Hr.
    destruct (IH (set_history (conversation_history self
                    ++ [user_turn (call_message c); assistant_turn r]) self))
      as [replies Hrs]; [exact Hp | exists cl; exact Hcl | exact Hall |].
    destruct (sends _ calls) as [self2 rs]. simpl in *.
    exists (r :: replies). simpl. now rewrite Hrs.
Qed.

(** C1. On a gemini client with an empty transcript and a non-empty
    system prompt, the first send passes [system_prompt], two line
    feeds and the message to the provider, as the claim says.  The
    send leaves the transcript empty, so the second send of the session
    passes the system prompt in front of its message again, which the
    claim excludes. *)
Theorem gemini_system_prompt_on_every_send
    (api1 api2 : Remote) (self : AIClient) (c : Client) (sp m1 m2 : string) :
  provider self = "gemini" ->
  client self = Some c ->
  conversation_history self = [] ->
  sp <> "" ->
  chat api1 self m1 (Some sp)
  = (self, replied (generate_content api1 c (sp +:+ NL +:+ NL +:+ m1))) /\
  chat api2 (fst (chat api1 self m1 (Some sp))) m2 (Some sp)
  = (self, replied (generate_content api2 c (sp +:+ NL +:+ NL +:+ m2))) /\
  sp +:+ NL +:+ NL +:+ m2 <> m2.
Proof.
  intros Hp Hc Hh Hsp.
  assert (forall api m, chat api self m (Some sp)
            = (self, replied (generate_content api c (sp +:+ NL +:+ NL +:+ m)))) as H.
  { intros api m. rewrite (chat_gemini api self c m (Some sp) Hp Hc), Hh.
    apply truthy_Some in Hsp. rewrite Hsp. reflexivity. }
  split; [apply H|]. split; [rewrite H; apply H|].
  apply (with_system_differs sp m2).
Qed.

Lemma gemini_system_prompt_on_every_send_witness :
  chat answering gemini_client "hi" (Some "You are a poet")
  = (gemini_client, Return (Some ("You are a poet" +:+ NL +:+ NL +:+ "hi"))) /\
  chat answering (fst (chat answering gemini_client "hi" (Some "You are a poet")))
    "again" (Some "You are a poet")
  = (gemini_client, Return (Some ("You are a poet" +:+ NL +:+ NL +:+ "again"))) /\
  "You are a poet" +:+ NL +:+ NL +:+ "again" <> "again".
Proof.
  apply (gemini_system_prompt_on_every_send answering answering gemini_client
           (GenerativeModel "g-key" "gemini-pro") "You are a poet" "hi" "again");
    [reflexivity | reflexivity | reflexivity | discriminate].
Defined.

(** C7. A send on a gemini client leaves the transcript as it was,
    whatever the message, the system prompt, the prior transcript and
    the provider's answer; the whole object is unchanged. *)
Theorem gemini_send_leaves_transcript
    (api : Remote) (self : AIClient) (m : string) (sp : option string) :
  provider self = "gemini" ->
  conversation_history (fst (chat api self m sp)) = conversation_history self /\
  fst (chat api self m sp) = self.
Proof.
  intros Hp. rewrite (chat_gemini_self api self m sp Hp). split; reflexivity.
Qed.

Lemma gemini_send_leaves_transcript_witness :
  conversation_history
    (fst (chat answering gemini_client_later "more" (Some "You are a poet")))
  = conversation_history gemini_client_later /\
  fst (chat answering gemini_client_later "more" (Some "You are a poet"))
  = gemini_client_later.
Proof.
  apply (gemini_send_leaves_transcript answering gemini_client_later "more"
           (Some "You are a poet")).
  reflexivity.
Defined.

(** C2. On an openai, groq or anthropic client with an empty
    transcript, after a sequence of sends each of which returned a
    reply, the transcript is the user turn and the assistant turn of
    each exchange, in the order of the sends: twice as many turns as
    sends, roles alternating from the user.  Such sequences are the
    ones of a client whose provider answers: with a provider client
    and providers that return a choice, or a block, to every request,
    every send returns a reply and the transcript is as said. *)
Theorem chat_transcript_after_sends (self : AIClient) (calls : list Call) :
  In (provider self) chat_providers ->
  conversation_history self = [] ->
  (forall replies,
      snd (sends self calls) = map (fun r => Return (Some r)) replies ->
      conversation_history (fst (sends self calls))
      = transcript_of (combine (map call_message calls) replies) /\
      length (conversation_history (fst (sends self calls))) = 2 * length calls /\
      alternating (conversation_history (fst (sends self calls))) = true) /\
  (is_Some (client self) ->
   Forall (fun c => answers (call_api c)) calls ->
   exists replies,
     length replies = length calls /\
     snd (sends self calls) = map (fun r => Return (Some r)) replies /\
     conversation_history (fst (sends self calls))
     = transcript_of (combine (map call_message calls) replies) /\
     length (conversation_history (fst (sends self calls))) = 2 * length calls /\
     alternating (conversation_history (fst (sends self calls))) = true).
Proof.
  intros Hp Hh.
  assert (forall replies,
             snd (sends self calls) = map (fun r => Return (Some r)) replies ->
             length replies = length calls /\
             conversation_history (fst (sends self calls))
             = transcript_of (combine (map call_message calls) replies) /\
             length (conversation_history (fst (sends self calls))) = 2 * length calls /\
             alternating (conversation_history (fst (sends self calls))) = true) as H.
  { intros replies Hr.
    destruct (sends_history calls self replies Hp Hr) as [Ht Hl].
    rewrite Hh in Ht. simpl in Ht. rewrite Ht.
    split; [exact Hl|]. split; [reflexivity|]. split.
    - rewrite length_transcript_of, length_combine, length_map, Hl. lia.
    - apply alternating_transcript_of. }
  split.
  - intros replies Hr. apply (H replies Hr).
  - intros Hc Ha.
    destruct (sends_all_reply calls self Hp Hc Ha) as [replies Hr].
    exists replies. destruct (H replies Hr) as (H1 & H2 & H3 & H4). auto.
Qed.

Lemma chat_transcript_after_sends_witness :
  (conversation_history (fst (sends openai_client [call_hello; call_more]))
   = [user_turn "hello"; assistant_turn "pong"; user_turn "more"; assistant_turn "pong"]
   /\ conversation_history (fst (sends groq_client [call_hello; call_more]))
      = [user_turn "hello"; assistant_turn "pong"; user_turn "more"; assistant_turn "pong"]
   /\ conversation_history (fst (sends anthropic_client [call_hello; call_more]))
      = [user_turn "hello"; assistant_turn "pong"; user_turn "more"; assistant_turn "pong"])
  /\ (exists replies,
        length replies = 2 /\
        snd (sends openai_client [call_hello; call_more])
        = map (fun r => Return (Some r)) replies /\
        conversation_history (fst (sends openai_client [call_hello; call_more]))
        = transcript_of (combine ["hello"; "more"] replies) /\
        length (conversation_history (fst (sends openai_client [call_hello; call_more])))
        = 4 /\
        alternating
          (conversation_history (fst (sends openai_client [call_hello; call_more])))
        = true).
Proof.
  assert (answers answering) as Ha
      by (split; intros; exists "pong", []; reflexivity).
  split; [split; [|split]|].
  - apply (proj1 (chat_transcript_after_sends openai_client [call_hello; call_more]
                    ltac:(simpl; tauto) eq_refl) ["pong"; "pong"] eq_refl).
  - apply (proj1 (chat_transcript_after_sends groq_client [call_hello; call_more]
                    ltac:(simpl; tauto) eq_refl) ["pong"; "pong"] eq_refl).
  - apply (proj1 (chat_transcript_after_sends anthropic_client [call_hello; call_more]
                    ltac:(simpl; tauto) eq_refl) ["pong"; "pong"] eq_refl).
  - apply (proj2 (chat_transcript_after_sends openai_client [call_hello; call_more]
                    ltac:(simpl; tauto) eq_refl)).
    + exists (OpenAI "o-key"). reflexivity.
    + apply Forall_cons; split; [exact Ha|].
      apply Forall_cons; split; [exact Ha | constructor].
Defined.

(** C3. On an anthropic client the user turn is appended before the
    provider is called, and nothing takes it back: when the send
    raises, the transcript is the prior one with the user turn of the
    failed send at its end, not the prior one as the claim says. *)
Theorem failed_anthropic_send_keeps_user_turn
    (api : Remote) (self : AIClient) (m : string) (sp : option string) (e : exn) :
  provider self = "anthropic" ->
  snd (chat api self m sp) = Raise e ->
  conversation_history (fst (chat api self m sp))
  = conversation_history self ++ [user_turn m] /\
  conversation_history (fst (chat api self m sp)) <> conversation_history self.
Proof.
  intros Hp Hr.
  assert (conversation_history (fst (chat api self m sp))
          = conversation_history self ++ [user_turn m]) as H.
  { revert Hr.
    destruct (chat_anthropic_cases api self m sp Hp) as [[e' ->]|[r ->]]; simpl;
      [reflexivity | discriminate]. }
  split; [exact H|]. rewrite H. intros E.
  apply (f_equal (@length Message)) in E. rewrite length_app in E. simpl in E. lia.
Qed.

Lemma failed_anthropic_send_keeps_user_turn_witness :
  conversation_history (fst (chat unreachable anthropic_client "hello" None))
  = conversation_history anthropic_client ++ [user_turn "hello"] /\
  conversation_history (fst (chat unreachable anthropic_client "hello" None))
  <> conversation_history anthropic_client.
Proof.
  apply (failed_anthropic_send_keeps_user_turn unreachable anthropic_client
           "hello" None (RemoteError "connection refused"));
    reflexivity.
Defined.

(** In the loop a raise of [chat] is caught and printed, and the loop
    goes on with the object as [chat] left it. *)
Lemma interactive_mode_error_caught
    (client0 : AIClient) (sp : option string) (text : string) (api : Remote)
    (rest : list (Stdin * Remote)) (e : exn) :
  String.eqb (strip text) "" = false ->
  String.eqb (lower (strip text)) "exit" = false ->
  String.eqb (lower (strip text)) "quit" = false ->
  String.eqb (lower (strip text)) "clear" = false ->
  snd (chat api client0 (strip text) sp) = Raise e ->
  interactive_mode client0 sp ((Line text, api) :: rest) =
  (fst (interactive_mode (fst (chat api client0 (strip text) sp)) sp rest),
   Error e :: snd (interactive_mode (fst (chat api client0 (strip text) sp)) sp rest)).
Proof.
  intros H1 H2 H3 H4 Hr. simpl. rewrite H1, H2, H3, H4. simpl.
  destruct (chat api client0 (strip text) sp) as [c r]. simpl in *. subst r.
  destruct (interactive_mode c sp rest). reflexivity.
Qed.

(** An interactive anthropic session whose first turn fails: the next
    turn sends, and records, two user turns in a row. *)
Example interactive_mode_after_failed_turn :
  interactive_mode anthropic_client None
    [(Line "hello", unreachable); (Line " hello ", answering)]
  = (set_history [user_turn "hello"; user_turn "hello"; assistant_turn "pong"]
       anthropic_client,
     [Error (RemoteError "connection refused"); AI (Some "pong")]).
Proof. vm_compute. reflexivity. Qed.

(** ** Conversation session: [clear_history] *)

(** C6, as amended. For each of the four providers and every prior
    transcript, after [clear_history] and one send that returned a
    reply, the transcript of an openai, groq or anthropic client is the
    user turn and the assistant turn of that send, two turns; the
    transcript of a gemini client is empty. *)
Theorem clear_then_send
    (api : Remote) (self : AIClient) (m : string) (sp : option string) (r : string) :
  In (provider self) providers ->
  snd (chat api (clear_history self) m sp) = Return (Some r) ->
  conversation_history (fst (chat api (clear_history self) m sp))
  = if String.eqb (provider self) "gemini" then []
    else [user_turn m; assistant_turn r].
Proof.
  intros Hp Hr.
  destruct (providers_cases _ Hp) as [E|Hc].
  - rewrite E. simpl. rewrite chat_gemini_self by exact E. reflexivity.
  - assert (In (provider (clear_history self)) chat_providers) as Hc'
        by (simpl; destruct Hc as [E|[E|E]]; rewrite E; tauto).
    rewrite (chat_success api (clear_history self) m sp r Hc' Hr).
    destruct Hc as [E|[E|E]]; rewrite E; reflexivity.
Qed.

Lemma clear_then_send_witness :
  conversation_history
    (fst (chat answering
            (clear_history (fst (sends groq_client [call_hello; call_more])))
            "again" None))
  = [user_turn "again"; assistant_turn "pong"].
Proof.
  apply (clear_then_send answering (fst (sends groq_client [call_hello; call_more]))
           "again" None "pong");
    [vm_compute; tauto | reflexivity].
Defined.

(** C6 as stated fails on gemini: after [clear_history] and a send
    that returned a reply the transcript has no turn. *)
Lemma gemini_clear_then_send_records_nothing :
  snd (chat answering (clear_history gemini_client_later) "hi" None)
  = Return (Some "hi") /\
  conversation_history
    (fst (chat answering (clear_history gemini_client_later) "hi" None)) = [] /\
  length (conversation_history
            (fst (chat answering (clear_history gemini_client_later) "hi" None)))
  <> 2.
Proof. repeat split; discriminate. Qed.

(** ** Interactive sessions *)

(** A gemini session started with a system prompt: the provider, which
    here answers with the prompt it got, is sent the system prompt on
    both turns. *)
Example interactive_mode_gemini_system_prompt :
  interactive_mode gemini_client (Some "You are a poet")
    [(Line "hi", answering); (Line "again", answering); (Line "quit", answering)]
  = (gemini_client,
     [AI (Some ("You are a poet" +:+ NL +:+ NL +:+ "hi"));
      AI (Some ("You are a poet" +:+ NL +:+ NL +:+ "again"));
      Goodbye]).
Proof. vm_compute. reflexivity. Qed.

(** A groq session fed [hello], [clear], [quit]: one exchange, then an
    empty transcript, then the end of the loop; commands are read
    without regard to case or to the blanks around them. *)
Example interactive_mode_hello_clear_quit :
  interactive_mode groq_client None
    [(Line "hello", answering); (Line " Clear", answering); (Line "QUIT ", answering)]
  = (groq_client, [AI (Some "pong"); Cleared; Goodbye]).
Proof. vm_compute. reflexivity. Qed.

(** ** Further properties of the credential store *)

Lemma env_fill_is_Some (h : Host) (k : string) :
  is_Some (env_fill h k) <-> In k (map fst recognized).
Proof.
  change (map fst recognized)
    with ["gemini_api_key"; "openai_api_key"; "anthropic_api_key"; "groq_api_key"].
  unfold env_fill. simpl.
  destruct (String.eqb_spec k "gemini_api_key") as [->|H1]; [split; eauto|].
  destruct (String.eqb_spec k "openai_api_key") as [->|H2]; [split; eauto|].
  destruct (String.eqb_spec k "anthropic_api_key") as [->|H3]; [split; eauto 6|].
  destruct (String.eqb_spec k "groq_api_key") as [->|H4]; [split; eauto 6|].
  split; [intros [x Hx]; discriminate|].
  intros [E|[E|[E|[E|[]]]]]; congruence.
Qed.

(** The keys [load_config] fills do not depend on the environment:
    only the values do. *)
Lemma env_fill_None (h h' : Host) (k : string) :
  env_fill h k = None -> env_fill h' k = None.
Proof.
  unfold env_fill.
  destruct (String.eqb k "gemini_api_key"); [discriminate|].
  destruct (String.eqb k "openai_api_key"); [discriminate|].
  destruct (String.eqb k "anthropic_api_key"); [discriminate|].
  destruct (String.eqb k "groq_api_key"); [discriminate|reflexivity].
Qed.

(** X1. After [load_config] the keys bound in [self.config] are the
    keys of the credentials file and the four provider keys, and a key
    the file binds keeps the value of the file whatever the environment
    holds. *)
Theorem load_config_file_first (h : Host) (self : AIClient) (k : string) :
  (is_Some (config (load_config h self) !! k) <->
   is_Some (file_lookup h k) \/ In k (map fst recognized)) /\
  (forall v, file_lookup h k = Some v ->
             config (load_config h self) !! k = Some v).
Proof.
  change (config (load_config h self)) with (loaded_config h).
  rewrite loaded_config_lookup. split.
  - destruct (file_lookup h k) as [v|].
    + split; eauto.
    + rewrite env_fill_is_Some. split; [tauto|].
      intros [[x Hx]|H]; [discriminate | exact H].
  - intros v ->. reflexivity.
Qed.

(** X3. Once a loaded configuration was saved, the environment no
    longer counts: loading the saved file gives the saved configuration
    again, on a host with any environment. *)
Theorem saved_config_ignores_environment (h h' : Host) (self other : AIClient) :
  config (load_config (save_config (load_config h self) h') other)
  = config (load_config h self).
Proof.
  change (config (load_config h self)) with (loaded_config h).
  change (config (load_config (save_config (load_config h self) h') other))
    with (loaded_config (save_config (load_config h self) h')).
  apply map_eq. intros k.
  rewrite (loaded_config_lookup (save_config (load_config h self) h') k).
  unfold file_lookup. simpl.
  destruct (loaded_config h !! k) as [v|] eqn:E; [reflexivity|].
  rewrite loaded_config_lookup in E.
  destruct (file_lookup h k); [discriminate|].
  exact (env_fill_None h _ k E).
Qed.

(** ** Further properties of the construction *)

Lemma initialize_client_no_library (lib : Installed) (self : AIClient) :
  In (provider self) providers ->
  library_available lib (provider self) = false ->
  exists msg, initialize_client lib self = (self, Raise (ImportError msg)).
Proof.
  intros Hp Hl. unfold initialize_client.
  destruct (providers_cases _ Hp) as [E|[E|[E|E]]]; rewrite E in *;
    unfold library_available in Hl; simpl in *; rewrite Hl; simpl;
    eexists; reflexivity.
Qed.

(** X2. A provider key the credentials file binds to the empty string
    hides the environment variable of the provider: the constructor
    raises a configuration error whatever the variable holds. *)
Theorem empty_file_key_shadows_environment
    (h : Host) (p : string) (m : option string) :
  In p providers ->
  file_lookup h (api_key_name p) = Some "" ->
  exists e, AIClient_init h p m = Raise e /\ ConfigurationError e = true.
Proof.
  intros Hp Hf. apply AIClient_init_no_key; [exact Hp|].
  rewrite loaded_config_lookup, Hf. reflexivity.
Qed.

Lemma empty_file_key_shadows_environment_witness :
  environ shadowed_host !! "GROQ_API_KEY" = Some "q-key" /\
  exists e, AIClient_init shadowed_host "groq" None = Raise e /\
            ConfigurationError e = true.
Proof.
  split; [reflexivity|].
  apply (empty_file_key_shadows_environment shadowed_host "groq" None);
    [simpl; tauto | reflexivity].
Defined.

(** X4. The constructor returns an object exactly when the lower-cased
    selector is one of the four providers, the library of that provider
    is installed, and the loaded configuration binds its key to a
    non-empty string. *)
Theorem AIClient_init_returns_iff (h : Host) (s : string) (m : option string) :
  is_return (AIClient_init h s m) = true <->
  In (lower s) providers /\
  library_available (installed h) (lower s) = true /\
  truthy (loaded_config h !! api_key_name (lower s)) = true.
Proof.
  rewrite AIClient_init_unfold.
  pose proof (fresh_provider s m h) as Hprov.
  split.
  - intros Hr.
    destruct (in_dec String.string_dec (lower s) providers) as [Hp|Hp].
    + destruct (library_available (installed h) (lower s)) eqn:Hl.
      * destruct (truthy (loaded_config h !! api_key_name (lower s))) eqn:Hk;
          [auto|].
        destruct (initialize_client_no_key (installed h) (load_config h (fresh s m)))
          as (e & He & _); [now rewrite Hprov | now rewrite Hprov |].
        rewrite He in Hr. discriminate.
      * destruct (initialize_client_no_library (installed h) (load_config h (fresh s m)))
          as (msg & He); [now rewrite Hprov | now rewrite Hprov |].
        rewrite He in Hr. discriminate.
    + rewrite initialize_client_unknown in Hr by (now rewrite Hprov). discriminate.
  - intros (Hp & Hl & Hk).
    destruct (initialize_client_ok (installed h) (load_config h (fresh s m)))
      as (c & Hc & _); [now rewrite Hprov | now rewrite Hprov | now rewrite Hprov |].
    now rewrite Hc.
Qed.

(** X5. When the library of a provider is not installed the constructor
    raises [ImportError], whether or not a credential is configured. *)
Theorem missing_library_raises_ImportError
    (h : Host) (p : string) (m : option string) :
  In p providers ->
  library_available (installed h) p = false ->
  exists msg, AIClient_init h p m = Raise (ImportError msg).
Proof.
  intros Hp Hl.
  destruct (initialize_client_no_library (installed h) (load_config h (fresh p m)))
    as (msg & He).
  - rewrite fresh_provider, (lower_provider p Hp). exact Hp.
  - rewrite fresh_provider, (lower_provider p Hp). exact Hl.
  - exists msg. now rewrite AIClient_init_unfold, He.
Qed.

Lemma missing_library_raises_ImportError_witness :
  loaded_config no_anthropic_host !! "anthropic_api_key" = Some "a-key" /\
  exists msg, AIClient_init no_anthropic_host "anthropic" None = Raise (ImportError msg).
Proof.
  split; [vm_compute; reflexivity|].
  apply (missing_library_raises_ImportError no_anthropic_host "anthropic" None);
    [simpl; tauto | reflexivity].
Defined.

(** Each branch of [initialize_client], read back from the object it
    returned. *)
Ltac read_back_object h :=
  intros Hp;
  destruct (providers_cases _ Hp) as [->|[->|[->| ->]]]; key_names;
    unfold AIClient_init, initialize_client, load_config, set_config; simpl;
    match goal with
    | |- context [negb (?flag (installed h))] =>
        destruct (flag (installed h)); simpl; [|discriminate]
    end;
    match goal with
    | |- context [loaded_config h !! ?k] =>
        destruct (loaded_config h !! k) as [key|]; simpl; [|discriminate];
        destruct (String.eqb_spec key ""); simpl; [discriminate|];
        intros [= <-]; exists key; auto
    end.

Lemma AIClient_init_object_aux
    (h : Host) (p : string) (m : option string) (c : AIClient) :
  In p providers ->
  AIClient_init h p m = Return c ->
  exists key,
    loaded_config h !! api_key_name p = Some key /\ key <> "" /\
    c = {| provider := p;
           model := Some (py_or m (default_model p));
           conversation_history := [];
           config := loaded_config h;
           client := Some (handle_for p key (py_or m (default_model p))) |}.
Proof. read_back_object h. Qed.

(** X6. The object the constructor returns for one of the four
    selectors: the selector, the effective model, an empty transcript,
    the loaded configuration, and the client of the provider's library
    built on the non-empty credential the configuration binds (and, for
    gemini, on the effective model). *)
Theorem AIClient_init_object
    (h : Host) (p : string) (m : option string) (c : AIClient) :
  In p providers ->
  AIClient_init h p m = Return c ->
  exists key,
    loaded_config h !! api_key_name p = Some key /\ key <> "" /\
    c = {| provider := p;
           model := Some (py_or m (default_model p));
           conversation_history := [];
           config := loaded_config h;
           client := Some (handle_for p key (py_or m (default_model p))) |}.
Proof. read_back_object h. Qed.

Lemma AIClient_init_object_witness :
  exists key,
    loaded_config env_host !! api_key_name "gemini" = Some key /\ key <> "" /\
    gemini_client
    = {| provider := "gemini";
         model := Some (py_or None (default_model "gemini"));
         conversation_history := [];
         config := loaded_config env_host;
         client := Some (handle_for "gemini" key (py_or None (default_model "gemini"))) |}.
Proof.
  apply (AIClient_init_object env_host "gemini" None gemini_client);
    [simpl; tauto | vm_compute; reflexivity].
Defined.

(** ** Further properties of [chat] *)

Lemma set_history_same (self : AIClient) :
  set_history (conversation_history self) self = self.
Proof. destruct self. reflexivity. Qed.

(** Whatever the provider and the outcome, [chat] leaves [self] with
    its transcript extended by nothing, by the user turn, or by the
    user turn and the assistant turn of the reply it returns. *)
Lemma chat_appends (api : Remote) (self : AIClient) (m : string) (sp : option string) :
  exists added,
    fst (chat api self m sp) = set_history (conversation_history self ++ added) self /\
    (added = [] \/ added = [user_turn m] \/
     exists r, snd (chat api self m sp) = Return (Some r) /\
               added = [user_turn m; assistant_turn r]).
Proof.
  assert (fst (chat api self m sp) = self ->
          exists added,
            fst (chat api self m sp)
            = set_history (conversation_history self ++ added) self /\
            (added = [] \/ added = [user_turn m] \/
             exists r, snd (chat api self m sp) = Return (Some r) /\
                       added = [user_turn m; assistant_turn r])) as Hsame.
  { intros E. exists []. rewrite app_nil_r, set_history_same. auto. }
  destruct (String.eqb (provider self) "gemini") eqn:Eg.
  - apply Hsame. apply chat_gemini_self. now apply String.eqb_eq.
  - destruct (String.eqb (provider self) "openai") eqn:Eo;
      [|destruct (String.eqb (provider self) "anthropic") eqn:Ea;
        [|destruct (String.eqb (provider self) "groq") eqn:Eq]].
    + assert (chat api self m sp = chat_completions api self m sp) as Hc
          by (unfold chat; now rewrite Eg, Eo).
      destruct (chat_completions_cases api self m sp) as [[e E]|[r E]]; rewrite E in Hc.
      * apply Hsame. now rewrite Hc.
      * rewrite Hc. eexists. split; [reflexivity|]. right; right. eauto.
    + apply String.eqb_eq in Ea.
      destruct (chat_anthropic_cases api self m sp Ea) as [[e E]|[r E]]; rewrite E.
      * eexists. split; [reflexivity|]. auto.
      * eexists. split; [reflexivity|]. right; right. eauto.
    + assert (chat api self m sp = chat_completions api self m sp) as Hc
          by (unfold chat; now rewrite Eg, Eo, Ea, Eq).
      destruct (chat_completions_cases api self m sp) as [[e E]|[r E]]; rewrite E in Hc.
      * apply Hsame. now rewrite Hc.
      * rewrite Hc. eexists. split; [reflexivity|]. right; right. eauto.
    + apply Hsame. unfold chat. now rewrite Eg, Eo, Ea, Eq.
Qed.

Lemma chat_frame
    (api : Remote) (self : AIClient) (m : string) (sp : option string) :
  provider (fst (chat api self m sp)) = provider self /\
  model (fst (chat api self m sp)) = model self /\
  config (fst (chat api self m sp)) = config self /\
  client (fst (chat api self m sp)) = client self.
Proof.
  destruct (chat_appends api self m sp) as (added & -> & _). repeat split.
Qed.

(** X7. [chat] assigns nothing but the transcript: the provider, the
    model, the configuration and the client of the object are after the
    call what they were before, for every provider and whether the call
    returns or raises. *)
Theorem chat_changes_only_transcript
    (api : Remote) (self : AIClient) (m : string) (sp : option string) :
  provider (fst (chat api self m sp)) = provider self /\
  model (fst (chat api self m sp)) = model self /\
  config (fst (chat api self m sp)) = config self /\
  client (fst (chat api self m sp)) = client self.
Proof.
  destruct (chat_appends api self m sp) as (added & -> & _). repeat split.
Qed.

(** X8. [chat] only appends to the transcript, and what it appends is
    nothing, the user turn of the message, or that user turn and the
    assistant turn of the reply it returned; so a system prompt is
    never recorded: a transcript without a system turn stays without
    one. *)
Theorem chat_appends_only
    (api : Remote) (self : AIClient) (m : string) (sp : option string) :
  (exists added,
     conversation_history (fst (chat api self m sp))
     = conversation_history self ++ added /\
     (added = [] \/ added = [user_turn m] \/
      exists r, snd (chat api self m sp) = Return (Some r) /\
                added = [user_turn m; assistant_turn r])) /\
  (no_system_turn (conversation_history self) ->
   no_system_turn (conversation_history (fst (chat api self m sp)))).
Proof.
  destruct (chat_appends api self m sp) as (added & E & Hadd).
  split.
  - exists added. rewrite E. split; [reflexivity | exact Hadd].
  - intros Hno. rewrite E. simpl. unfold no_system_turn in *.
    apply Forall_app. split; [exact Hno|].
    destruct Hadd as [->|[->|(r & _ & ->)]];
      repeat constructor; simpl; discriminate.
Qed.

(** An empty system prompt is no system prompt: for every provider
    [chat] does and returns the same with [''] as with [None]. *)
Lemma empty_system_prompt_is_none (api : Remote) (self : AIClient) (m : string) :
  chat api self m (Some "") = chat api self m None.
Proof. reflexivity. Qed.

Lemma sends_frame (calls : list Call) :
  forall self : AIClient,
    provider (fst (sends self calls)) = provider self /\
    model (fst (sends self calls)) = model self /\
    config (fst (sends self calls)) = config self /\
    client (fst (sends self calls)) = client self /\
    length (snd (sends self calls)) = length calls.
Proof.
  induction calls as [|c calls IH]; intros self; [repeat split|].
  simpl.
  pose proof (chat_frame (call_api c) self (call_message c)
                (call_system c)) as (H1 & H2 & H3 & H4).
  destruct (chat (call_api c) self (call_message c) (call_system c)) as [self1 r1].
  specialize (IH self1). destruct (sends self1 calls) as [self2 rs].
  simpl in *. destruct IH as (I1 & I2 & I3 & I4 & I5).
  repeat split; congruence.
Qed.

Lemma alternating_app (b : list Message) :
  forall (n : nat) (a : list Message),
    length a <= n -> alternating a = true -> alternating (a ++ b) = alternating b.
Proof.
  induction n as [|n IH]; intros a Hl Ha.
  - destruct a; [reflexivity | simpl in Hl; lia].
  - destruct a as [|u [|v a]]; [reflexivity | discriminate |].
    simpl in *. apply andb_prop in Ha as [Huv Ha]. rewrite Huv. simpl.
    apply IH; [lia | exact Ha].
Qed.

(** One send on openai or groq: the exchange is recorded when the send
    returns a reply, and the object is untouched otherwise. *)
Lemma chat_completions_step (api : Remote) (self : AIClient)
    (m : string) (sp : option string) :
  In (provider self) ["openai"; "groq"] ->
  fst (chat api self m sp) =
  match snd (chat api self m sp) with
  | Return (Some r) =>
      set_history (conversation_history self ++ [user_turn m; assistant_turn r]) self
  | _ => self
  end.
Proof.
  intros Hp.
  assert (chat api self m sp = chat_completions api self m sp) as ->.
  { simpl in Hp. destruct Hp as [E|[E|[]]]; unfold chat; rewrite <- E; reflexivity. }
  destruct (chat_completions_cases api self m sp) as [[e ->]|[r ->]]; reflexivity.
Qed.

Lemma completions_transcript_after_any_sends_aux (self : AIClient) (calls : list Call) :
  In (provider self) ["openai"; "groq"] ->
  conversation_history (fst (sends self calls))
  = conversation_history self
      ++ transcript_of (exchanges calls (snd (sends self calls))).
Proof.
  revert self. induction calls as [|c calls IH]; intros self Hp.
  - simpl. now rewrite app_nil_r.
  - simpl.
    pose proof (chat_completions_step (call_api c) self (call_message c)
                  (call_system c) Hp) as Hs.
    destruct (chat (call_api c) self (call_message c) (call_system c)) as [self1 r1].
    simpl in Hs.
    assert (In (provider self1) ["openai"; "groq"]) as Hp1
        by (subst self1; destruct r1 as [[r|]|e]; exact Hp).
    specialize (IH self1 Hp1). destruct (sends self1 calls) as [self2 rs].
    simpl in *. rewrite IH. subst self1.
    destruct r1 as [[r|]|e]; simpl; [|reflexivity|reflexivity].
    now rewrite <- app_assoc.
Qed.

(** X9. On openai and groq the transcript after any run of sends, some
    of which may have raised, is the transcript before it followed by
    the exchanges of the sends that returned a reply, in order; a send
    that raised leaves no trace, and a transcript whose roles alternate
    keeps alternating. *)
Theorem completions_transcript_after_any_sends (self : AIClient) (calls : list Call) :
  In (provider self) ["openai"; "groq"] ->
  conversation_history (fst (sends self calls))
  = conversation_history self
      ++ transcript_of (exchanges calls (snd (sends self calls))) /\
  (alternating (conversation_history self) = true ->
   alternating (conversation_history (fst (sends self calls))) = true).
Proof.
  intros Hp.
  pose proof (completions_transcript_after_any_sends_aux self calls Hp) as H.
  split; [exact H|].
  intros Ha. rewrite H.
  rewrite (alternating_app _ (length (conversation_history self))) by auto.
  apply alternating_transcript_of.
Qed.

Lemma completions_transcript_after_any_sends_witness :
  conversation_history (fst (sends openai_client [call_hello; call_refused; call_more]))
  = conversation_history openai_client
      ++ transcript_of [("hello", "pong"); ("more", "pong")] /\
  (alternating (conversation_history openai_client) = true ->
   alternating
     (conversation_history
        (fst (sends openai_client [call_hello; call_refused; call_more]))) = true).
Proof.
  apply (completions_transcript_after_any_sends openai_client
           [call_hello; call_refused; call_more]).
  simpl. tauto.
Defined.

(** What one send on openai or groq returns: the first choice of the
    completion asked on the system message, the transcript and the
    user turn. *)
Lemma chat_completions_request (api : Remote) (self : AIClient) (c : Client)
    (m : string) (sp : option string) :
  In (provider self) ["openai"; "groq"] ->
  client self = Some c ->
  snd (chat api self m sp) =
  first_choice (completions_create api c (model self)
                  (system_messages sp ++ conversation_history self ++ [user_turn m])).
Proof.
  intros Hp Hc.
  assert (chat api self m sp = chat_completions api self m sp) as ->.
  { simpl in Hp. destruct Hp as [E|[E|[]]]; unfold chat; rewrite <- E; reflexivity. }
  unfold chat_completions, system_messages. rewrite Hc.
  replace ((if truthy sp then [] ++ [system_turn (default "" sp)] else [])
             ++ conversation_history self)
    with ((if truthy sp then [system_turn (default "" sp)] else [])
            ++ conversation_history self)
    by (destruct (truthy sp); reflexivity).
  rewrite <- app_assoc.
  destruct (completions_create api c (model self) _) as [[|r rest]|e]; reflexivity.
Qed.

(** X10. On openai and groq every send carries the conversation so
    far: after any run of sends, the next send asks the provider for a
    completion, under the model of the client, of the system message
    (when the prompt is non-empty), the transcript before the run, the
    exchanges of the run that returned a reply, and the new user turn,
    and returns its first choice. *)
Theorem completions_request_carries_transcript
    (self : AIClient) (calls : list Call) (api : Remote) (c : Client)
    (m : string) (sp : option string) :
  In (provider self) ["openai"; "groq"] ->
  client self = Some c ->
  snd (chat api (fst (sends self calls)) m sp) =
  first_choice
    (completions_create api c (model self)
       (system_messages sp
          ++ (conversation_history self
                ++ transcript_of (exchanges calls (snd (sends self calls))))
          ++ [user_turn m])).
Proof.
  intros Hp Hc.
  destruct (sends_frame calls self) as (F1 & F2 & _ & F4 & _).
  pose proof (completions_transcript_after_any_sends_aux self calls Hp) as H.
  rewrite (chat_completions_request api (fst (sends self calls)) c m sp);
    [| now rewrite F1 | now rewrite F4].
  now rewrite F2, H.
Qed.

Lemma completions_request_carries_transcript_witness :
  snd (chat answering (fst (sends groq_client [call_hello; call_refused]))
         "next" (Some "be brief")) =
  first_choice
    (completions_create answering (Groq "q-key") (model groq_client)
       (system_messages (Some "be brief")
          ++ (conversation_history groq_client
                ++ transcript_of
                     (exchanges [call_hello; call_refused]
                        (snd (sends groq_client [call_hello; call_refused]))))
          ++ [user_turn "next"])).
Proof.
  apply (completions_request_carries_transcript groq_client
           [call_hello; call_refused] answering (Groq "q-key") "next"
           (Some "be brief"));
    [simpl; tauto | reflexivity].
Defined.

(** One send on anthropic: the user turn is recorded, and the assistant
    turn after it when the send returns a reply. *)
Lemma chat_anthropic_step (api : Remote) (self : AIClient)
    (m : string) (sp : option string) :
  provider self = "anthropic" ->
  fst (chat api self m sp) =
  set_history
    (conversation_history self
       ++ user_turn m
          :: match snd (chat api self m sp) with
             | Return (Some r) => [assistant_turn r]
             | _ => []
             end) self.
Proof.
  intros Hp.
  destruct (chat_anthropic_cases api self m sp Hp) as [[e ->]|[r ->]]; reflexivity.
Qed.

Lemma anthropic_transcript_aux (calls : list Call) :
  forall self : AIClient,
    provider self = "anthropic" ->
    conversation_history (fst (sends self calls))
    = conversation_history self ++ turns_of_calls calls (snd (sends self calls)).
Proof.
  induction calls as [|c calls IH]; intros self Hp.
  - simpl. now rewrite app_nil_r.
  - simpl.
    pose proof (chat_anthropic_step (call_api c) self (call_message c)
                  (call_system c) Hp) as Hs.
    destruct (chat (call_api c) self (call_message c) (call_system c)) as [self1 r1].
    simpl in Hs.
    assert (provider self1 = "anthropic") as Hp1 by (subst self1; exact Hp).
    specialize (IH self1 Hp1). destruct (sends self1 calls) as [self2 rs].
    simpl in *. rewrite IH. subst self1. simpl.
    rewrite <- app_assoc. reflexivity.
Qed.

Lemma length_turns_of_calls (calls : list Call) :
  forall rs : list (result (option string)),
    length rs = length calls ->
    length (turns_of_calls calls rs) = length calls + replies_count rs.
Proof.
  unfold replies_count.
  induction calls as [|c calls IH]; intros [|r rs] Hl; try discriminate; [reflexivity|].
  simpl in Hl. injection Hl as Hl. specialize (IH rs Hl). simpl.
  rewrite length_app, IH. destruct r as [[x|]|e]; simpl; lia.
Qed.

(** X11. On anthropic the transcript after any run of sends is the
    transcript before it followed, for each send in order, by its user
    turn and, when the send returned a reply, by the assistant turn:
    the transcript grows by one turn for each send and one more for
    each reply. *)
Theorem anthropic_transcript_after_any_sends (self : AIClient) (calls : list Call) :
  provider self = "anthropic" ->
  conversation_history (fst (sends self calls))
  = conversation_history self ++ turns_of_calls calls (snd (sends self calls)) /\
  length (conversation_history (fst (sends self calls)))
  = length (conversation_history self) + length calls
    + replies_count (snd (sends self calls)).
Proof.
  intros Hp. pose proof (anthropic_transcript_aux calls self Hp) as H.
  split; [exact H|].
  destruct (sends_frame calls self) as (_ & _ & _ & _ & Hl).
  rewrite H, length_app, (length_turns_of_calls calls _ Hl). lia.
Qed.

Lemma anthropic_transcript_after_any_sends_witness :
  conversation_history
    (fst (sends anthropic_client [call_refused; call_refused; call_hello]))
  = conversation_history anthropic_client
      ++ [user_turn "lost"; user_turn "lost"; user_turn "hello"; assistant_turn "pong"] /\
  length (conversation_history
            (fst (sends anthropic_client [call_refused; call_refused; call_hello])))
  = length (conversation_history anthropic_client) + 3 + 1.
Proof.
  apply (anthropic_transcript_after_any_sends anthropic_client
           [call_refused; call_refused; call_hello]).
  reflexivity.
Defined.

(** X12. On anthropic every send passes to the provider the model of
    the client, the bound 4096 on the reply, the whole transcript with
    the new user turn at its end, and the system prompt as a field of
    its own, absent when the prompt is empty; the turns passed include
    the user turns of the sends that raised before. *)
Theorem anthropic_request_carries_transcript
    (self : AIClient) (calls : list Call) (api : Remote) (c : Client)
    (m : string) (sp : option string) :
  provider self = "anthropic" ->
  client self = Some c ->
  snd (chat api (fst (sends self calls)) m sp) =
  first_choice
    (messages_create api c (model self) 4096
       ((conversation_history self ++ turns_of_calls calls (snd (sends self calls)))
          ++ [user_turn m])
       (if truthy sp then sp else None)).
Proof.
  intros Hp Hc.
  destruct (sends_frame calls self) as (F1 & F2 & _ & F4 & _).
  pose proof (anthropic_transcript_aux calls self Hp) as H.
  unfold chat at 1. rewrite F1, Hp. simpl. rewrite F4, Hc, F2, H.
  destruct (messages_create api c (model self) 4096 _ _) as [[|r rest]|e]; reflexivity.
Qed.

Lemma anthropic_request_carries_transcript_witness :
  snd (chat answering (fst (sends anthropic_client [call_refused])) "again" (Some "")) =
  first_choice
    (messages_create answering (Anthropic "a-key") (model anthropic_client) 4096
       ((conversation_history anthropic_client
           ++ turns_of_calls [call_refused] (snd (sends anthropic_client [call_refused])))
          ++ [user_turn "again"])
       (if truthy (Some "") then Some "" else None)).
Proof.
  apply (anthropic_request_carries_transcript anthropic_client [call_refused]
           answering (Anthropic "a-key") "again" (Some ""));
    reflexivity.
Defined.

(** X13. A gemini client keeps nothing from one send to the next: after
    any run of sends the object is what it was, and what each send
    returns is what it would have returned as the first send. *)
Theorem gemini_sends_are_independent (self : AIClient) (calls : list Call) :
  provider self = "gemini" ->
  fst (sends self calls) = self /\
  snd (sends self calls)
  = map (fun c => snd (chat (call_api c) self (call_message c) (call_system c))) calls.
Proof.
  intros Hp. induction calls as [|c calls [IH1 IH2]]; [split; reflexivity|].
  simpl.
  pose proof (chat_gemini_self (call_api c) self (call_message c) (call_system c) Hp)
    as Hs.
  destruct (chat (call_api c) self (call_message c) (call_system c)) as [self1 r1].
  simpl in Hs. subst self1.
  destruct (sends self calls) as [self2 rs]. simpl in *. subst. split; reflexivity.
Qed.

Lemma gemini_sends_are_independent_witness :
  fst (sends gemini_client [call_hello; call_more]) = gemini_client /\
  snd (sends gemini_client [call_hello; call_more])
  = map (fun c => snd (chat (call_api c) gemini_client (call_message c) (call_system c)))
      [call_hello; call_more].
Proof.
  apply (gemini_sends_are_independent gemini_client [call_hello; call_more]).
  reflexivity.
Defined.

(** ** Further properties of [interactive_mode] *)

(** One turn of the loop, by the kind of its input. *)
Lemma interactive_mode_cons
    (client0 : AIClient) (sp : option string) (i : Stdin * Remote)
    (rest : list (Stdin * Remote)) :
  interactive_mode client0 sp (i :: rest) =
  if blank i then interactive_mode client0 sp rest
  else if stops i then (client0, [Goodbye])
  else if clears i then
    (fst (interactive_mode (clear_history client0) sp rest),
     Cleared :: snd (interactive_mode (clear_history client0) sp rest))
  else
    match fst i with
    | Line text =>
        let r := chat (snd i) client0 (strip text) sp in
        (fst (interactive_mode (fst r) sp rest),
         printed (snd r) :: snd (interactive_mode (fst r) sp rest))
    | KeyboardInterrupt => (client0, [Goodbye])
    end.
Proof.
  destruct i as [[text|] api]; [|reflexivity].
  unfold blank, stops, clears. simpl.
  destruct (String.eqb (strip text) ""); [reflexivity|].
  destruct (String.eqb (lower (strip text)) "exit"
            || String.eqb (lower (strip text)) "quit"); [reflexivity|].
  destruct (String.eqb (lower (strip text)) "clear").
  - destruct (interactive_mode (clear_history client0) sp rest). reflexivity.
  - destruct (chat api client0 (strip text) sp) as [c [x|e]]; simpl;
      destruct (interactive_mode c sp rest); reflexivity.
Qed.

Lemma stops_not_blank (i : Stdin * Remote) : stops i = true -> blank i = false.
Proof.
  destruct i as [[text|] api]; unfold stops, blank; simpl; [|reflexivity].
  destruct (String.eqb_spec (strip text) "") as [->|]; [discriminate | reflexivity].
Qed.

(** X15. The loop assigns nothing of the client but its transcript:
    provider, model, configuration and provider client are at the end
    of any session what they were at its start. *)
Theorem interactive_mode_changes_only_transcript
    (inputs : list (Stdin * Remote)) (client0 : AIClient) (sp : option string) :
  provider (fst (interactive_mode client0 sp inputs)) = provider client0 /\
  model (fst (interactive_mode client0 sp inputs)) = model client0 /\
  config (fst (interactive_mode client0 sp inputs)) = config client0 /\
  client (fst (interactive_mode client0 sp inputs)) = client client0.
Proof.
  revert client0. induction inputs as [|i rest IH]; intros client0; [repeat split|].
  rewrite interactive_mode_cons.
  destruct (blank i); [apply IH|].
  destruct (stops i); [repeat split|].
  destruct (clears i); [apply (IH (clear_history client0))|].
  destruct i as [[text|] api]; simpl; [|repeat split].
  destruct (chat_frame api client0 (strip text) sp)
    as (H1 & H2 & H3 & H4).
  destruct (IH (fst (chat api client0 (strip text) sp))) as (I1 & I2 & I3 & I4).
  repeat split; congruence.
Qed.

(** X16. [exit], [quit] (in any case, with blanks around: any of the
    characters [str.strip()] removes, no-break space and next line
    among them) and an interrupt at the prompt end the session: what
    follows them on the input is never read, so the client and the
    lines printed are the same whatever follows. *)
Theorem interactive_mode_stops
    (pre rest : list (Stdin * Remote)) (i : Stdin * Remote)
    (client0 : AIClient) (sp : option string) :
  stops i = true ->
  interactive_mode client0 sp (pre ++ i :: rest)
  = interactive_mode client0 sp (pre ++ [i]).
Proof.
  intros Hs. revert client0. induction pre as [|j pre IH]; intros client0.
  - simpl app. rewrite !interactive_mode_cons.
    now rewrite (stops_not_blank i Hs), Hs.
  - simpl app. rewrite !interactive_mode_cons.
    destruct (blank j); [apply IH|].
    destruct (stops j); [reflexivity|].
    destruct (clears j); [now rewrite IH|].
    destruct j as [[text|] api]; simpl; [|reflexivity].
    now rewrite IH.
Qed.

Lemma interactive_mode_stops_witness :
  interactive_mode groq_client None
    ([(Line "hello", answering)] ++ (Line (NBSP +:+ " Quit" +:+ NBSP), unreachable)
       :: [(Line "more", answering); (Line "clear", answering)])
  = interactive_mode groq_client None
      ([(Line "hello", answering)] ++ [(Line (NBSP +:+ " Quit" +:+ NBSP), unreachable)]).
Proof.
  apply (interactive_mode_stops [(Line "hello", answering)]
           [(Line "more", answering); (Line "clear", answering)]
           (Line (NBSP +:+ " Quit" +:+ NBSP), unreachable) groq_client None).
  reflexivity.
Defined.

(** The session above ends at the line with the no-break spaces, and
    the provider, which would refuse, is not called for it. *)
Example interactive_mode_stops_at_no_break_space :
  interactive_mode groq_client None
    [(Line "hello", answering); (Line (NBSP +:+ " Quit" +:+ NBSP), unreachable);
     (Line "more", answering)]
  = (set_history [user_turn "hello"; assistant_turn "pong"] groq_client,
     [AI (Some "pong"); Goodbye]).
Proof. vm_compute. reflexivity. Qed.

(** X17. Lines that are empty once stripped (lines of nothing but
    characters [str.strip()] removes, no-break space and next line
    among them) are skipped: a session runs as the session with those
    lines removed, with the same final client and the same lines
    printed, and the provider is not called for them. *)
Theorem interactive_mode_skips_blank_lines
    (inputs : list (Stdin * Remote)) (client0 : AIClient) (sp : option string) :
  interactive_mode client0 sp inputs
  = interactive_mode client0 sp (List.filter (fun i => negb (blank i)) inputs).
Proof.
  revert client0. induction inputs as [|i rest IH]; intros client0; [reflexivity|].
  simpl List.filter. destruct (blank i) eqn:Hb; simpl negb; cbv iota.
  - rewrite interactive_mode_cons, Hb. apply IH.
  - rewrite !interactive_mode_cons, Hb.
    destruct (stops i); [reflexivity|].
    destruct (clears i); [now rewrite IH|].
    destruct i as [[text|] api]; simpl; [|reflexivity].
    now rewrite IH.
Qed.

Lemma interactive_mode_skips_blank_lines_witness :
  interactive_mode groq_client None
    [(Line NBSP, unreachable); (Line "hello", answering);
     (Line (NEL +:+ " " +:+ NBSP), unreachable)]
  = interactive_mode groq_client None [(Line "hello", answering)].
Proof.
  exact (interactive_mode_skips_blank_lines
           [(Line NBSP, unreachable); (Line "hello", answering);
            (Line (NEL +:+ " " +:+ NBSP), unreachable)]
           groq_client None).
Defined.

(** X18. The loop never sends a command or an empty line to the
    provider: when every user turn of the transcript holds a text that
    is neither empty nor [exit], [quit] or [clear] in any case, the
    same is true of the transcript at the end of the session. *)
Theorem interactive_mode_user_turns_sendable
    (inputs : list (Stdin * Remote)) (client0 : AIClient) (sp : option string) :
  user_turns_sendable (conversation_history client0) ->
  user_turns_sendable (conversation_history (fst (interactive_mode client0 sp inputs))).
Proof.
  revert client0. induction inputs as [|i rest IH]; intros client0 H; [exact H|].
  rewrite interactive_mode_cons.
  destruct (blank i) eqn:Hb; [now apply IH|].
  destruct (stops i) eqn:Hs; [exact H|].
  destruct (clears i) eqn:Hc; [apply IH; constructor|].
  destruct i as [[text|] api]; simpl; [|exact H].
  apply IH.
  assert (sendable (strip text)) as Hsend.
  { unfold blank, stops, clears in *. simpl in *.
    apply orb_false_elim in Hs as [He Hq].
    repeat split; apply String.eqb_neq; assumption. }
  destruct (chat_appends api client0 (strip text) sp) as (added & -> & Hadd).
  simpl. unfold user_turns_sendable in *. apply Forall_app. split; [exact H|].
  destruct Hadd as [->|[->|(r & _ & ->)]];
    repeat (apply Forall_cons; split); try apply Forall_nil; simpl;
    solve [trivial | intros _; exact Hsend | discriminate].
Qed.

Lemma interactive_mode_user_turns_sendable_witness :
  user_turns_sendable
    (conversation_history
       (fst (interactive_mode anthropic_client None
               [(Line " EXIT now", unreachable); (Line "", answering);
                (Line "Clear", answering); (Line "hello ", answering)]))).
Proof.
  apply (interactive_mode_user_turns_sendable
           [(Line " EXIT now", unreachable); (Line "", answering);
            (Line "Clear", answering); (Line "hello ", answering)]
           anthropic_client None).
  constructor.
Defined.

Lemma clear_history_forgets (c1 c2 : AIClient) :
  provider c1 = provider c2 ->
  model c1 = model c2 ->
  config c1 = config c2 ->
  client c1 = client c2 ->
  clear_history c1 = clear_history c2.
Proof.
  destruct c1, c2. simpl. intros -> -> -> ->. reflexivity.
Qed.

(** X19. After [clear] the session does not depend on what was said
    before: two clients with the same provider, model, configuration
    and provider client, whatever their transcripts, run the same from
    a [clear] command on: same final client, same lines printed. *)
Theorem interactive_mode_clear_forgets
    (rest : list (Stdin * Remote)) (i : Stdin * Remote)
    (c1 c2 : AIClient) (sp : option string) :
  clears i = true ->
  provider c1 = provider c2 ->
  model c1 = model c2 ->
  config c1 = config c2 ->
  client c1 = client c2 ->
  fst (interactive_mode c1 sp (i :: rest)) = fst (interactive_mode c2 sp (i :: rest)) /\
  snd (interactive_mode c1 sp (i :: rest)) = snd (interactive_mode c2 sp (i :: rest)).
Proof.
  intros Hc Ep Em Ecfg Ecl.
  pose proof (clear_history_forgets c1 c2 Ep Em Ecfg Ecl) as E.
  rewrite !interactive_mode_cons.
  assert (blank i = false /\ stops i = false) as [Hb Hs].
  { destruct i as [[text|] api]; unfold clears, blank, stops in *; simpl in *;
      [|discriminate].
    apply String.eqb_eq in Hc. rewrite Hc. simpl.
    destruct (String.eqb_spec (strip text) "") as [E0|]; [|auto].
    rewrite E0 in Hc. discriminate. }
  rewrite Hb, Hs, Hc, E. split; reflexivity.
Qed.

Lemma interactive_mode_clear_forgets_witness :
  conversation_history openai_client_later <> conversation_history openai_client /\
  fst (interactive_mode openai_client_later (Some "Be brief")
         ((Line "CLEAR", answering) :: [(Line "hi", answering)]))
  = fst (interactive_mode openai_client (Some "Be brief")
           ((Line "CLEAR", answering) :: [(Line "hi", answering)])) /\
  snd (interactive_mode openai_client_later (Some "Be brief")
         ((Line "CLEAR", answering) :: [(Line "hi", answering)]))
  = snd (interactive_mode openai_client (Some "Be brief")
           ((Line "CLEAR", answering) :: [(Line "hi", answering)])).
Proof.
  split; [discriminate|].
  apply (interactive_mode_clear_forgets [(Line "hi", answering)]
           (Line "CLEAR", answering) openai_client_later openai_client
           (Some "Be brief"));
    reflexivity.
Defined.

(** ** Construction followed by a send *)

(** X14. The first send on a client just constructed, which is what a
    one-shot query does, carries no history: gemini is sent the message
    with a non-empty system prompt in front, openai and groq the system
    message (when the prompt is non-empty) and the user turn, anthropic
    the user turn alone with the prompt as the system field; each on
    the client built from the configured credential and under the
    effective model. *)
Theorem first_send_after_construction
    (h : Host) (p : string) (m : option string) (c : AIClient)
    (api : Remote) (msg : string) (sp : option string) :
  In p providers ->
  AIClient_init h p m = Return c ->
  exists key,
    loaded_config h !! api_key_name p = Some key /\
    snd (chat api c msg sp) =
    let model' := py_or m (default_model p) in
    let cl := handle_for p key model' in
    if String.eqb p "gemini" then
      replied (generate_content api cl
                 (if truthy sp then with_system (default "" sp) msg else msg))
    else if String.eqb p "anthropic" then
      first_choice (messages_create api cl (Some model') 4096 [user_turn msg]
                      (if truthy sp then sp else None))
    else
      first_choice (completions_create api cl (Some model')
                      (system_messages sp ++ [user_turn msg])).
Proof.
  intros Hp Hc.
  destruct (AIClient_init_object_aux h p m c Hp Hc) as (key & Hk & _ & ->).
  exists key. split; [exact Hk|].
  destruct (providers_cases p Hp) as [->|[->|[->| ->]]];
    unfold chat, chat_completions, system_messages, first_choice, replied; simpl.
  - destruct (truthy sp);
      destruct (generate_content api _ _); reflexivity.
  - destruct (truthy sp); simpl;
      destruct (completions_create api _ _ _) as [[|r rest]|e]; reflexivity.
  - destruct (messages_create api _ _ _ _ _) as [[|r rest]|e]; reflexivity.
  - destruct (truthy sp); simpl;
      destruct (completions_create api _ _ _) as [[|r rest]|e]; reflexivity.
Qed.

Lemma first_send_after_construction_witness :
  exists key,
    loaded_config env_host !! api_key_name "openai" = Some key /\
    snd (chat answering openai_client "Explain Python" (Some "Be brief")) =
    first_choice
      (completions_create answering (OpenAI key) (Some "gpt-4-turbo-preview")
         [system_turn "Be brief"; user_turn "Explain Python"]).
Proof.
  apply (first_send_after_construction env_host "openai" None openai_client
           answering "Explain Python" (Some "Be brief"));
    [simpl; tauto | vm_compute; reflexivity].
Defined.

(** ** [configure_api_keys] *)

Lemma typed_nonempty (t v : string) : typed t = Some v -> v = strip t /\ v <> "".
Proof.
  unfold typed. destruct (String.eqb_spec (strip t) ""); [discriminate|].
  intros [= <-]. auto.
Qed.

(** The assignment one prompt guards, seen from a key. *)
Lemma lookup_typed (key t k : string) (config0 : gmap string string) :
  (if String.eqb (strip t) "" then config0 else <[key := strip t]> config0) !! k =
  if String.eqb k key
  then match typed t with Some v => Some v | None => config0 !! k end
  else config0 !! k.
Proof.
  unfold typed.
  destruct (String.eqb_spec k key) as [->|Hne];
    destruct (String.eqb (strip t) ""); try reflexivity.
  - now rewrite lookup_insert_eq.
  - rewrite lookup_insert_ne by congruence. reflexivity.
Qed.

Lemma file_json_lookup (h : Host) (k : string) :
  (match config_file h with Some f => json f | None => ∅ end) !! k = file_lookup h k.
Proof.
  unfold file_lookup. destruct (config_file h); [reflexivity | apply lookup_empty].
Qed.

(** The file after a run in which the four prompts were answered. *)
Lemma configure_api_keys_lookup (h : Host) (t1 t2 t3 t4 : string)
    (rest : list Stdin) (k : string) :
  file_lookup
    (fst (fst (configure_api_keys h (Line t1 :: Line t2 :: Line t3 :: Line t4 :: rest))))
    k
  = match typed_for k t1 t2 t3 t4 with
    | Some v => Some v
    | None => file_lookup h k
    end.
Proof.
  unfold configure_api_keys, ask_key, file_lookup at 1. simpl.
  rewrite !lookup_typed, file_json_lookup. unfold typed_for.
  destruct (String.eqb_spec k "groq_api_key") as [->|]; simpl; [reflexivity|].
  destruct (String.eqb_spec k "anthropic_api_key") as [->|]; simpl; [reflexivity|].
  destruct (String.eqb_spec k "openai_api_key") as [->|]; simpl; [reflexivity|].
  destruct (String.eqb k "gemini_api_key"); reflexivity.
Qed.

(** X20. When the four prompts are answered, the file is written with
    owner-only mode; a provider key whose line is not blank is bound to
    the line stripped (of every character [str.strip()] removes, a
    no-break space pasted with the key among them), and every other
    key, of a provider or not, is bound as the file bound it before, or
    not at all: a blank line is no way to remove or to empty a key.
    The environment is not consulted and not changed. *)
Theorem configure_api_keys_writes (h : Host) (t1 t2 t3 t4 : string)
    (rest : list Stdin) (k : string) :
  let r := configure_api_keys h (Line t1 :: Line t2 :: Line t3 :: Line t4 :: rest) in
  snd r = true /\
  file_lookup (fst (fst r)) k
  = match typed_for k t1 t2 t3 t4 with
    | Some v => Some v
    | None => file_lookup h k
    end /\
  (forall v, typed_for k t1 t2 t3 t4 = Some v -> v <> "") /\
  perm <$> config_file (fst (fst r)) = Some 384%Z /\
  environ (fst (fst r)) = environ h.
Proof.
  cbv zeta. split; [reflexivity|].
  split; [exact (configure_api_keys_lookup h t1 t2 t3 t4 rest k)|].
  split; [|split; reflexivity].
  intros v. unfold typed_for.
  repeat match goal with
         | |- context [if ?b then _ else _] => destruct b
         end;
    try discriminate; intros Hv; apply typed_nonempty in Hv; tauto.
Qed.

Lemma configure_api_keys_writes_witness :
  file_lookup
    (fst (fst (configure_api_keys file_host
                 [Line ("g-new" +:+ NBSP); Line NBSP; Line ""; Line NEL])))
    "gemini_api_key" = Some "g-new" /\
  file_lookup
    (fst (fst (configure_api_keys file_host
                 [Line ("g-new" +:+ NBSP); Line NBSP; Line ""; Line NEL])))
    "openai_api_key" = None /\
  file_lookup
    (fst (fst (configure_api_keys file_host
                 [Line ("g-new" +:+ NBSP); Line NBSP; Line ""; Line NEL])))
    "groq_api_key" = Some "gsk_0123456789abcdef" /\
  file_lookup
    (fst (fst (configure_api_keys file_host
                 [Line ("g-new" +:+ NBSP); Line NBSP; Line ""; Line NEL])))
    "editor" = Some "vi".
Proof.
  pose proof (fun k => proj1 (proj2 (configure_api_keys_writes file_host
                                       ("g-new" +:+ NBSP) NBSP "" NEL [] k))) as H.
  split; [|split; [|split]].
  - exact (H "gemini_api_key").
  - exact (H "openai_api_key").
  - exact (H "groq_api_key").
  - exact (H "editor").
Defined.

(** X21. An interrupt at any of the four prompts leaves the host as it
    was: the file is not written, and the keys typed at the prompts
    before the interrupt are lost. *)
Theorem configure_api_keys_interrupted
    (h : Host) (answered : list string) (rest : list Stdin) :
  length answered < 4 ->
  let r := configure_api_keys h (map Line answered ++ KeyboardInterrupt :: rest) in
  fst (fst r) = h /\ snd r = false /\ length (snd (fst r)) = S (length answered).
Proof.
  intros Hl.
  destruct answered as [|a1 [|a2 [|a3 [|a4 more]]]]; simpl in Hl; try lia;
    repeat split.
Qed.

Lemma configure_api_keys_interrupted_witness :
  fst (fst (configure_api_keys file_host
              (map Line ["g-new"; "o-new"] ++ KeyboardInterrupt :: [Line "q-new"])))
  = file_host /\
  snd (configure_api_keys file_host
         (map Line ["g-new"; "o-new"] ++ KeyboardInterrupt :: [Line "q-new"]))
  = false /\
  length (snd (fst (configure_api_keys file_host
                      (map Line ["g-new"; "o-new"] ++ KeyboardInterrupt :: [Line "q-new"]))))
  = 3.
Proof.
  apply (configure_api_keys_interrupted file_host ["g-new"; "o-new"] [Line "q-new"]).
  simpl. lia.
Defined.

(** X22. A key typed at the prompt of a provider is the credential the
    constructor uses afterwards: with the library installed, the client
    is built on the line as typed, stripped of every character
    [str.strip()] removes, whatever the file held before and whatever
    the environment holds. *)
Theorem configured_key_is_used (h : Host) (t1 t2 t3 t4 : string)
    (rest : list Stdin) (p : string) (m : option string) (v : string) :
  In p providers ->
  library_available (installed h) p = true ->
  typed_for (api_key_name p) t1 t2 t3 t4 = Some v ->
  exists c,
    AIClient_init
      (fst (fst (configure_api_keys h (Line t1 :: Line t2 :: Line t3 :: Line t4 :: rest))))
      p m = Return c /\
    client c = Some (handle_for p v (py_or m (default_model p))).
Proof.
  intros Hp Hl Hv.
  set (h' := fst (fst (configure_api_keys h
                         (Line t1 :: Line t2 :: Line t3 :: Line t4 :: rest)))).
  assert (loaded_config h' !! api_key_name p = Some v) as Hk.
  { rewrite loaded_config_lookup. unfold h'.
    now rewrite configure_api_keys_lookup, Hv. }
  assert (v <> "") as Hne.
  { revert Hv. unfold typed_for.
    repeat match goal with
           | |- context [if ?b then _ else _] => destruct b
           end;
      try discriminate; intros Hv; apply typed_nonempty in Hv; tauto. }
  destruct (AIClient_init_ok h' p m Hp) as (c & Hc & _).
  - exact Hl.
  - rewrite Hk. now apply truthy_Some.
  - exists c. split; [exact Hc|].
    destruct (AIClient_init_object_aux h' p m c Hp Hc) as (key & Hk' & _ & ->).
    simpl. congruence.
Qed.

Lemma configured_key_is_used_witness :
  exists c,
    AIClient_init
      (fst (fst (configure_api_keys env_host
                   (Line "" :: Line "" :: Line ""
                      :: Line (" gsk_typed" +:+ NBSP) :: []))))
      "groq" None = Return c /\
    client c = Some (Groq "gsk_typed").
Proof.
  apply (configured_key_is_used env_host "" "" "" (" gsk_typed" +:+ NBSP) [] "groq"
           None "gsk_typed");
    [simpl; tauto | reflexivity | reflexivity].
Defined.

Lemma first10_prefix (n : nat) :
  forall s : string,
    String.length (String.substring 0 n s) <= n /\
    String.prefix (String.substring 0 n s) s = true.
Proof.
  induction n as [|n IH]; intros [|a s]; simpl; try (split; [lia | reflexivity]).
  destruct (IH s) as [Hl Hp]. split; [lia|].
  destruct (Ascii.ascii_dec a a); [exact Hp | congruence].
Qed.

(** X23. The prompts of a run show, for each provider in turn, the
    label and the beginning of the value the file bound to the key
    before the run: never more than its first ten characters, never a
    value of the environment, and never a key typed earlier in the same
    run. *)
Theorem configure_api_keys_prompts (h : Host) (t1 t2 t3 t4 : string)
    (rest : list Stdin) :
  snd (fst (configure_api_keys h (Line t1 :: Line t2 :: Line t3 :: Line t4 :: rest)))
  = map (fun lk => fst lk +:+ " API Key ["
                   +:+ first10 (default "" (file_lookup h (snd lk))) +:+ "...]: ")
      prompted /\
  forall s, String.length (first10 s) <= 10 /\ String.prefix (first10 s) s = true.
Proof.
  split; [|intros s; apply first10_prefix].
  unfold configure_api_keys, ask_key, key_prompt. simpl.
  rewrite !lookup_typed, !file_json_lookup. reflexivity.
Qed.
